(** * terraform-provider-authproxy: the resource lifecycle reconcilers

    A shallow embedding of [internal/provider]: the provider
    ([provider.go]), the tenant and role resources ([role_resource.go])
    and the tenant data source ([tenant_data_source.go]).

    Every CRUD method of the Go code is one definition here, written in a
    small monad that threads what the method can change (the response's
    state and diagnostics, the [tflog] output, the requests handed to the
    HTTP client) and that has Go's early [return].  What the Go standard
    library and the Terraform plugin framework do (JSON encoding and
    decoding, URL parsing, the HTTP round trip, the list conversions) is
    taken as a parameter, the records [Runtime], [Decoder] and
    [Framework]. *)

From Stdlib Require Import String List ZArith Bool Lia.
Import ListNotations.
Open Scope string_scope.

Set Implicit Arguments.

(** ** Go values *)

Definition error := string.
Definition bytes := string.

(** A call that returns [(value, err)]. *)
Inductive result (A : Type) : Type :=
| Ok (a : A)
| Err (e : error).
Arguments Ok {A} a.
Arguments Err {A} e.

Definition is_ok {A} (x : result A) : bool :=
  match x with Ok _ => true | Err _ => false end.

(** A [[]string]: [None] is the nil slice. *)
Definition slice := option (list string).

(** The JSON documents the request structs encode to. *)
#[local] Set Warnings "-register-all".
Inductive json : Type :=
| JNull
| JString (s : string)
| JArray (items : list json)
| JObject (fields : list (string * json)).

Definition slice_json (s : slice) : json :=
  match s with
  | None => JNull
  | Some l => JArray (map JString l)
  end.

(** ** Terraform framework values *)

Inductive Severity := SeverityError | SeverityWarning.

Record Diagnostic := {
  severity : Severity;
  summary : string;
  detail : string
}.

Definition Diagnostics := list Diagnostic.

Definition is_error (d : Diagnostic) : bool :=
  match severity d with SeverityError => true | SeverityWarning => false end.

Definition HasError (ds : Diagnostics) : bool := existsb is_error ds.

Definition ErrorDiagnostic (s d : string) : Diagnostic :=
  {| severity := SeverityError; summary := s; detail := d |}.

(** [Diagnostic.Equal]: same severity, summary and detail. *)
Definition Diagnostic_Equal (a b : Diagnostic) : bool :=
  match severity a, severity b with
  | SeverityError, SeverityError | SeverityWarning, SeverityWarning =>
      String.eqb (summary a) (summary b) && String.eqb (detail a) (detail b)
  | _, _ => false
  end.

(** [Diagnostics.Contains] *)
Definition Contains (ds : Diagnostics) (d : Diagnostic) : bool :=
  existsb (fun held => Diagnostic_Equal held d) ds.

(** [Diagnostics.Append]: each new diagnostic goes behind those held,
    unless one equal to it is held already. *)
Fixpoint Append (ds new : Diagnostics) : Diagnostics :=
  match new with
  | [] => ds
  | d :: rest => Append (if Contains ds d then ds else (ds ++ [d])%list) rest
  end.

(** [b] holds the diagnostics of [a] in front, in their order. *)
Definition extends (a b : Diagnostics) : Prop := exists added, b = (a ++ added)%list.

(** [b] holds every diagnostic of [x]. *)
Definition holds (b x : Diagnostics) : Prop := forall d, In d x -> In d b.

(** [types.String]: null, unknown or a known value. *)
Inductive types_String :=
| StringNull
| StringUnknown
| StringValue (s : string).

Definition ValueString (v : types_String) : string :=
  match v with
  | StringValue s => s
  | _ => EmptyString
  end.

(** [types.List] with string elements. *)
Inductive types_List :=
| ListNull
| ListUnknown
| ListValue (elems : list types_String).

(** A plan, state or configuration as a method receives it: the
    descriptor [Get(ctx, &data)] builds and the diagnostics it returns. *)
Record tfsdk (M : Type) := {
  raw : M;
  get_diags : Diagnostics
}.

Definition Get {M} (p : tfsdk M) : M * Diagnostics := (raw p, get_diags p).

(** [Get] assigns its target only when it returns no error: what the
    pointer [data] holds afterwards, nil when an error came back. *)
Definition assigned {M} (data : M) (ds : Diagnostics) : option M :=
  if HasError ds then None else Some data.

(** ** net/http *)

Definition Header := list (string * string).

Definition Header_Set (k v : string) (h : Header) : Header :=
  (k, v) :: filter (fun kv => negb (String.eqb (fst kv) k)) h.

Fixpoint Header_Get (k : string) (h : Header) : option string :=
  match h with
  | [] => None
  | (k', v) :: h' => if String.eqb k' k then Some v else Header_Get k h'
  end.

Record Request := {
  req_Method : string;
  req_URL : string;
  req_Header : Header;
  req_Body : option bytes
}.

(** A response: the status code and what [io.ReadAll] gives on its body. *)
Record Response := {
  res_StatusCode : Z;
  res_Body : result bytes
}.

Inductive http_Client := http_DefaultClient.

(** provider.go: [ProviderData]. *)
Module ProviderData.
Record t := {
  client : option http_Client;
  endpoint : string;
  username : string;
  password : string
}.
End ProviderData.

(** ** The wire structs and their JSON tags *)

Module createRequest.
Record t := { Name : string }.
Definition to_json (v : t) : json := JObject [("tenant", JString (Name v))].
End createRequest.

Module createResponse.
Record t := { ID : string }.
End createResponse.

Module updateRequest.
Record t := { Name : string; NewName : string }.
Definition to_json (v : t) : json :=
  JObject [("tenant", JString (Name v)); ("new_tenant", JString (NewName v))].
End updateRequest.

Module updateResponse.
Record t := { ID : string }.
End updateResponse.

Module readResponse.
Record t := { ID : string; Name : string }.
End readResponse.

Module deleteResponse.
Record t := { ID : string }.
End deleteResponse.

Module createRoleRequest.
Record t := { Name : string; Tenant : string; Scopes : slice }.
Definition to_json (v : t) : json :=
  JObject [("name", JString (Name v)); ("tenant", JString (Tenant v));
           ("scopes", slice_json (Scopes v))].
End createRoleRequest.

Module createRoleResponse.
Record t := { ID : string }.
End createRoleResponse.

(** Declared for the role update and used by no method. *)
Module updateRoleRequest.
Record t := { Name : string; Tenant : string; NewName : string; NewScopes : string }.
Definition to_json (v : t) : json :=
  JObject [("name", JString (Name v)); ("tenant", JString (Tenant v));
           ("new_name", JString (NewName v)); ("new_scopes", JString (NewScopes v))].
End updateRoleRequest.

Module updateRoleResponse.
Record t := { ID : string }.
End updateRoleResponse.

Module readRoleResponse.
Record t := { ID : string; Name : string; Tenant : string; Scopes : slice }.
End readRoleResponse.

Module deleteRoleResponse.
Record t := { ID : string }.
End deleteRoleResponse.

Module tenantDataReadResponse.
Record t := { ID : string; Name : string }.
End tenantDataReadResponse.

(** ** The descriptors *)

Module TenantResourceModel.
Record t := { Name : types_String; ID : types_String }.
Definition set_ID (d : t) (v : types_String) : t := {| Name := Name d; ID := v |}.
Definition set_Name (d : t) (v : types_String) : t := {| Name := v; ID := ID d |}.
End TenantResourceModel.

Module RoleResourceModel.
Record t := {
  ID : types_String;
  Name : types_String;
  Tenant : types_String;
  Scopes : types_List
}.
Definition set_ID (d : t) (v : types_String) : t :=
  {| ID := v; Name := Name d; Tenant := Tenant d; Scopes := Scopes d |}.
Definition set_Name (d : t) (v : types_String) : t :=
  {| ID := ID d; Name := v; Tenant := Tenant d; Scopes := Scopes d |}.
Definition set_Scopes (d : t) (v : types_List) : t :=
  {| ID := ID d; Name := Name d; Tenant := Tenant d; Scopes := v |}.
End RoleResourceModel.

Module TenantDataSourceModel.
Record t := { ID : types_String; Name : types_String }.
Definition set_ID (d : t) (v : types_String) : t := {| ID := v; Name := Name d |}.
End TenantDataSourceModel.

(** ** What the code calls but does not define *)

(** The Go standard library. *)
Record Runtime := {
  (** [json.Marshal] *)
  json_Marshal : json -> result bytes;
  (** the URL check of [http.NewRequestWithContext]: [Some err] when the
      URL does not parse *)
  url_Parse : string -> option error;
  (** [base64.StdEncoding.EncodeToString] *)
  base64_EncodeToString : string -> string;
  (** [http.Client.Do]: one round trip *)
  client_Do : Request -> result Response;
  (** what the verb [%#v] prints for the provider data *)
  fmt_GoSyntax : option ProviderData.t -> string
}.

(** [json.Unmarshal] into each response struct. *)
Record Decoder := {
  Unmarshal_createResponse : bytes -> result createResponse.t;
  Unmarshal_updateResponse : bytes -> result updateResponse.t;
  Unmarshal_readResponse : bytes -> result readResponse.t;
  Unmarshal_createRoleResponse : bytes -> result createRoleResponse.t;
  Unmarshal_readRoleResponse : bytes -> result readRoleResponse.t;
  Unmarshal_tenantDataReadResponse : bytes -> result tenantDataReadResponse.t
}.

(** The framework's list conversions: [List.ElementsAs(ctx, &scopes, false)]
    gives the slice left in [scopes], [types.ListValueFrom(ctx,
    types.StringType, scopes)] the list built from a slice. *)
Record Framework := {
  ElementsAs : types_List -> slice * Diagnostics;
  ListValueFrom : slice -> types_List * Diagnostics
}.

(** [http.NewRequestWithContext]: the methods used are all valid, so only
    the URL can be refused. *)
Definition http_NewRequestWithContext (rt : Runtime)
    (method url : string) (body : option bytes) : result Request :=
  match url_Parse rt url with
  | Some err => Err err
  | None => Ok {| req_Method := method; req_URL := url;
                  req_Header := []; req_Body := body |}
  end.

(** [http.Request.SetBasicAuth] *)
Definition basicAuth (rt : Runtime) (username password : string) : string :=
  base64_EncodeToString rt (username ++ ":" ++ password).

Definition SetBasicAuth (rt : Runtime) (r : Request) (username password : string)
    : Request :=
  {| req_Method := req_Method r; req_URL := req_URL r;
     req_Header := Header_Set "Authorization"
                     ("Basic " ++ basicAuth rt username password) (req_Header r);
     req_Body := req_Body r |}.

(** ** The effects of a method *)

Inductive Level := LevelTrace | LevelDebug | LevelError.

Record LogEntry := {
  level : Level;
  msg : string;
  fields : list (string * string)
}.

(** What a method can change: the two fields of its response, the log, and
    the requests handed to the client, oldest first. *)
Record World (M : Type) := {
  resp_State : option M;
  resp_Diagnostics : Diagnostics;
  tflog : list LogEntry;
  wire : list Request
}.

(** How a statement ends: it goes on with a value, the method returns, or
    a nil pointer is dereferenced and the method panics. *)
Inductive Flow (A : Type) : Type :=
| Next (a : A)
| Return
| Panic.
Arguments Next {A} a.
Arguments Return {A}.
Arguments Panic {A}.

Definition Op (M A : Type) : Type := World M -> Flow A * World M.

Definition pure {M A} (a : A) : Op M A := fun w => (Next a, w).

Definition bind {M A B} (c : Op M A) (k : A -> Op M B) : Op M B :=
  fun w =>
    match c w with
    | (Next a, w') => k a w'
    | (Return, w') => (Return, w')
    | (Panic, w') => (Panic, w')
    end.

Declare Scope op_scope.
Delimit Scope op_scope with op.
Notation "x <- c ;; k" := (bind c (fun x => k))
  (at level 100, c at next level, right associativity) : op_scope.
Notation "c ;; k" := (bind c (fun _ => k))
  (at level 100, right associativity) : op_scope.
Open Scope op_scope.

(** [return] *)
Definition return_ {M A} : Op M A := fun w => (Return, w).

(** The value behind a pointer. *)
Definition deref {M A} (p : option A) : Op M A :=
  fun w => match p with Some a => (Next a, w) | None => (Panic, w) end.

(** [if err != nil { ...; return }] *)
Definition check {M A} (x : result A) (handler : error -> Op M unit) : Op M A :=
  match x with
  | Ok a => pure a
  | Err err => (handler err ;; return_)
  end.

Definition Diagnostics_Append {M} (ds : Diagnostics) : Op M unit :=
  fun w => (Next tt,
            {| resp_State := resp_State w;
               resp_Diagnostics := Append (resp_Diagnostics w) ds;
               tflog := tflog w; wire := wire w |}).

Definition Diagnostics_AddError {M} (s d : string) : Op M unit :=
  Diagnostics_Append [ErrorDiagnostic s d].

Definition Diagnostics_HasError {M} : Op M bool :=
  fun w => (Next (HasError (resp_Diagnostics w)), w).

Definition tflog_write {M} (l : Level) (m : string) (fs : list (string * string))
    : Op M unit :=
  fun w => (Next tt,
            {| resp_State := resp_State w;
               resp_Diagnostics := resp_Diagnostics w;
               tflog := (tflog w ++ [{| level := l; msg := m; fields := fs |}])%list;
               wire := wire w |}).

Definition tflog_Debug {M} := @tflog_write M LevelDebug.
Definition tflog_Error {M} := @tflog_write M LevelError.
Definition tflog_Trace {M} := @tflog_write M LevelTrace.

(** [client.Do(request)]: the request goes out, the runtime answers. *)
Definition Do {M} (rt : Runtime) (c : option http_Client) (request : Request)
    : Op M (result Response) :=
  (_ <- deref c ;;
   fun w => (Next (client_Do rt request),
             {| resp_State := resp_State w;
                resp_Diagnostics := resp_Diagnostics w;
                tflog := tflog w; wire := (wire w ++ [request])%list |})).

(** [io.ReadAll(res.Body)] *)
Definition io_ReadAll (res : Response) : result bytes := res_Body res.

(** [resp.State.Set(ctx, &data)]: the descriptor has the schema's shape,
    so it is stored and no diagnostic comes back. *)
Definition State_Set {M} (data : M) : Op M Diagnostics :=
  fun w => (Next [],
            {| resp_State := Some data;
               resp_Diagnostics := resp_Diagnostics w;
               tflog := tflog w; wire := wire w |}).

(** The world a method starts in: the response as the framework hands it
    over, nothing logged and nothing sent. *)
Definition start {M} (state : option M) (ds : Diagnostics) : World M :=
  {| resp_State := state; resp_Diagnostics := ds; tflog := []; wire := [] |}.

(** ** provider.go *)

(** The value of an [any]: a [*ProviderData], or something of another
    type, known by the name [%T] prints. *)
Inductive any :=
| any_ProviderData (p : ProviderData.t)
| any_other (typeName : string).

Module Model.
Record t := {
  Endpoint : types_String;
  Password : types_String;
  Username : types_String
}.
End Model.

Module TenantResource.

(** [name] is declared on the struct and assigned nowhere. *)
Record t := {
  providerData : option ProviderData.t;
  name : string
}.

Definition Metadata (r : t) (req_ProviderTypeName : string) : string :=
  req_ProviderTypeName ++ "_tenant".

Definition Configure (r : t) (req_ProviderData : option any) (ds : Diagnostics)
    : t * Diagnostics :=
  match req_ProviderData with
  | None => (r, ds)
  | Some (any_other typeName) =>
      (r, Append ds [ErrorDiagnostic "Unexpected Resource Configure Type"
                       ("Expected *ProviderData, got: " ++ typeName ++
                        ". Please report this issue to the provider developers.")])
  | Some (any_ProviderData data) =>
      ({| providerData := Some data; name := name r |}, ds)
  end.

Definition Create (rt : Runtime) (dec : Decoder) (r : t)
    (req_Plan : tfsdk TenantResourceModel.t) : Op TenantResourceModel.t unit :=
  let '(data, ds) := Get req_Plan in
  Diagnostics_Append ds ;;
  failed <- Diagnostics_HasError ;;
  if failed then return_ else
  marshalled <- check
    (json_Marshal rt (createRequest.to_json
       {| createRequest.Name := ValueString (TenantResourceModel.Name data) |}))
    (fun err => Diagnostics_AddError "Client Error"
       ("Unable to create tenant, got error: " ++ err)) ;;
  pd <- deref (providerData r) ;;
  request <- check
    (http_NewRequestWithContext rt "POST"
       (ProviderData.endpoint pd ++ "/tenants") (Some marshalled))
    (fun err => Diagnostics_AddError "Client Error"
       ("Unable to create tenant, tenantdata: " ++ fmt_GoSyntax rt (providerData r) ++
        " got error: " ++ err)) ;;
  tflog_Debug "Setting basic auth" [] ;;
  let request := SetBasicAuth rt request (ProviderData.username pd) (ProviderData.password pd) in
  tflog_Debug "Making request" [] ;;
  done <- Do rt (ProviderData.client pd) request ;;
  res <- check done
    (fun err => Diagnostics_AddError "Client Error"
       ("Unable to create tenant, got error: " ++ err)) ;;
  if negb (res_StatusCode res =? 200)%Z then
    resBody <- check (io_ReadAll res)
      (fun err => Diagnostics_AddError "Client Error"
         ("Unable to handle non 200 status code on tenant creation, got error: " ++ err)) ;;
    tflog_Error "could not create tenant" [("body", resBody)] ;;
    return_
  else
  resBody <- check (io_ReadAll res)
    (fun err => Diagnostics_AddError "Client Error"
       ("Unable to create tenant, got error: " ++ err)) ;;
  cr <- check (Unmarshal_createResponse dec resBody)
    (fun err => Diagnostics_AddError "Client Error"
       ("Unable to create tenant, got error: " ++ err)) ;;
  let data := TenantResourceModel.set_ID data (StringValue (createResponse.ID cr)) in
  tflog_Debug "created a tenant resource, response was" [("id", createResponse.ID cr)] ;;
  ds <- State_Set data ;;
  Diagnostics_Append ds.

Definition Read (rt : Runtime) (dec : Decoder) (r : t)
    (req_State : tfsdk TenantResourceModel.t) : Op TenantResourceModel.t unit :=
  let '(data, ds) := Get req_State in
  Diagnostics_Append ds ;;
  failed <- Diagnostics_HasError ;;
  if failed then return_ else
  pd <- deref (providerData r) ;;
  request <- check
    (http_NewRequestWithContext rt "GET"
       (ProviderData.endpoint pd ++ "/tenants/" ++
        ValueString (TenantResourceModel.Name data)) None)
    (fun err => Diagnostics_AddError "Client Error"
       ("Unable to read tenant, got error: " ++ err)) ;;
  tflog_Debug "Setting basic auth" [] ;;
  let request := SetBasicAuth rt request (ProviderData.username pd) (ProviderData.password pd) in
  tflog_Debug "Making request" [] ;;
  done <- Do rt (ProviderData.client pd) request ;;
  res <- check done
    (fun err => Diagnostics_AddError "Client Error"
       ("Unable to read tenant, got error: " ++ err)) ;;
  if negb (res_StatusCode res =? 200)%Z then
    resBody <- check (io_ReadAll res)
      (fun err => Diagnostics_AddError "Client Error"
         ("Unable to handle non 200 status code on tenant read, got error: " ++ err)) ;;
    tflog_Error "could not read tenant" [("body", resBody)] ;;
    return_
  else
  resBody <- check (io_ReadAll res)
    (fun err => Diagnostics_AddError "Client Error"
       ("Unable to read tenant, got error: " ++ err)) ;;
  newTenant <- check (Unmarshal_readResponse dec resBody)
    (fun err => Diagnostics_AddError "Client Error"
       ("Unable to read tenant, got error: " ++ err)) ;;
  let data := TenantResourceModel.set_ID data (StringValue (readResponse.ID newTenant)) in
  ds <- State_Set data ;;
  Diagnostics_Append ds.

Definition Update (rt : Runtime) (dec : Decoder) (r : t)
    (req_State req_Plan : tfsdk TenantResourceModel.t) : Op TenantResourceModel.t unit :=
  let '(old, ds) := Get req_State in
  Diagnostics_Append ds ;;
  let '(data, ds) := Get req_Plan in
  Diagnostics_Append ds ;;
  failed <- Diagnostics_HasError ;;
  if failed then return_ else
  marshalled <- check
    (json_Marshal rt (updateRequest.to_json
       {| updateRequest.Name := ValueString (TenantResourceModel.Name old);
          updateRequest.NewName := ValueString (TenantResourceModel.Name data) |}))
    (fun err => Diagnostics_AddError "Client Error"
       ("Unable to update tenant, got error: " ++ err)) ;;
  pd <- deref (providerData r) ;;
  request <- check
    (http_NewRequestWithContext rt "PATCH"
       (ProviderData.endpoint pd ++ "/tenants") (Some marshalled))
    (fun err => Diagnostics_AddError "Client Error"
       ("Unable to update tenant, got error: " ++ err)) ;;
  tflog_Debug "Setting basic auth" [] ;;
  let request := SetBasicAuth rt request (ProviderData.username pd) (ProviderData.password pd) in
  tflog_Debug "Making request" [] ;;
  done <- Do rt (ProviderData.client pd) request ;;
  res <- check done
    (fun err => Diagnostics_AddError "Client Error"
       ("Unable to update tenant, got error: " ++ err)) ;;
  if negb (res_StatusCode res =? 200)%Z then
    resBody <- check (io_ReadAll res)
      (fun err => Diagnostics_AddError "Client Error"
         ("Unable to handle non 200 status code on tenant update, got error: " ++ err)) ;;
    tflog_Error "could not update tenant" [("body", resBody)] ;;
    return_
  else
  resBody <- check (io_ReadAll res)
    (fun err => Diagnostics_AddError "Client Error"
       ("Unable to update tenant, got error: " ++ err)) ;;
  cr <- check (Unmarshal_updateResponse dec resBody)
    (fun err => Diagnostics_AddError "Client Error"
       ("Unable to update tenant, got error: " ++ err)) ;;
  let data := TenantResourceModel.set_ID data (StringValue (updateResponse.ID cr)) in
  tflog_Trace "updated a tenant resource" [] ;;
  ds <- State_Set data ;;
  Diagnostics_Append ds.

(** The last two assignments change the method's own copy of the
    descriptor, which it does not store. *)
Definition Delete (rt : Runtime) (dec : Decoder) (r : t)
    (req_State : tfsdk TenantResourceModel.t) : Op TenantResourceModel.t unit :=
  let '(data, ds) := Get req_State in
  Diagnostics_Append ds ;;
  failed <- Diagnostics_HasError ;;
  if failed then return_ else
  pd <- deref (providerData r) ;;
  request <- check
    (http_NewRequestWithContext rt "DELETE"
       (ProviderData.endpoint pd ++ "/tenants/" ++ name r) None)
    (fun err => Diagnostics_AddError "Client Error"
       ("Unable to read tenant, got error: " ++ err)) ;;
  tflog_Debug "Setting basic auth" [] ;;
  let request := SetBasicAuth rt request (ProviderData.username pd) (ProviderData.password pd) in
  tflog_Debug "Making request" [] ;;
  done <- Do rt (ProviderData.client pd) request ;;
  res <- check done
    (fun err => Diagnostics_AddError "Client Error"
       ("Unable to delete tenant, got error: " ++ err)) ;;
  if negb (res_StatusCode res =? 200)%Z then
    resBody <- check (io_ReadAll res)
      (fun err => Diagnostics_AddError "Client Error"
         ("Unable to handle non 200 status code on tenant deletion, got error: " ++ err)) ;;
    tflog_Error "could not delete tenant" [("body", resBody)] ;;
    return_
  else
  resBody <- check (io_ReadAll res)
    (fun err => Diagnostics_AddError "Client Error"
       ("Unable to delete tenant, got error: " ++ err)) ;;
  newTenant <- check (Unmarshal_readResponse dec resBody)
    (fun err => Diagnostics_AddError "Client Error"
       ("Unable to delete tenant, got error: " ++ err)) ;;
  let data := TenantResourceModel.set_ID data (StringValue (readResponse.ID newTenant)) in
  let data := TenantResourceModel.set_Name data (StringValue (readResponse.Name newTenant)) in
  pure tt.

End TenantResource.

(** [NewTenantResource] returns [&TenantResource{}]. *)
Definition NewTenantResource : TenantResource.t :=
  {| TenantResource.providerData := None; TenantResource.name := EmptyString |}.

Module RoleResource.

(** The struct declares [providerData] only.  [Delete] reads [r.name],
    the field of [TenantResource] it was written for; it is kept here as
    a field that no method assigns. *)
Record t := {
  providerData : option ProviderData.t;
  name : string
}.

Definition Metadata (r : t) (req_ProviderTypeName : string) : string :=
  req_ProviderTypeName ++ "_tenant".

Definition Configure (r : t) (req_ProviderData : option any) (ds : Diagnostics)
    : t * Diagnostics :=
  match req_ProviderData with
  | None => (r, ds)
  | Some (any_other typeName) =>
      (r, Append ds [ErrorDiagnostic "Unexpected Resource Configure Type"
                       ("Expected *ProviderData, got: " ++ typeName ++
                        ". Please report this issue to the provider developers.")])
  | Some (any_ProviderData data) =>
      ({| providerData := Some data; name := name r |}, ds)
  end.

(** [data.Scopes] is read before the diagnostics are tested: when
    [Plan.Get] returned an error, [data] is still nil there. *)
Definition Create (rt : Runtime) (dec : Decoder) (fw : Framework) (r : t)
    (req_Plan : tfsdk RoleResourceModel.t) : Op RoleResourceModel.t unit :=
  let '(data, ds) := Get req_Plan in
  Diagnostics_Append ds ;;
  data <- deref (assigned data ds) ;;
  let '(scopes, ds) := ElementsAs fw (RoleResourceModel.Scopes data) in
  Diagnostics_Append ds ;;
  failed <- Diagnostics_HasError ;;
  if failed then return_ else
  marshalled <- check
    (json_Marshal rt (createRoleRequest.to_json
       {| createRoleRequest.Name := ValueString (RoleResourceModel.Name data);
          createRoleRequest.Tenant := ValueString (RoleResourceModel.Tenant data);
          createRoleRequest.Scopes := scopes |}))
    (fun err => Diagnostics_AddError "Client Error"
       ("Unable to create role, got error: " ++ err)) ;;
  pd <- deref (providerData r) ;;
  request <- check
    (http_NewRequestWithContext rt "POST"
       (ProviderData.endpoint pd ++ "/roles") (Some marshalled))
    (fun err => Diagnostics_AddError "Client Error"
       ("Unable to create role, got error: " ++ err)) ;;
  tflog_Debug "Setting basic auth" [] ;;
  let request := SetBasicAuth rt request (ProviderData.username pd) (ProviderData.password pd) in
  tflog_Debug "Making request" [] ;;
  done <- Do rt (ProviderData.client pd) request ;;
  res <- check done
    (fun err => Diagnostics_AddError "Client Error"
       ("Unable to create role, got error: " ++ err)) ;;
  if negb (res_StatusCode res =? 200)%Z then
    resBody <- check (io_ReadAll res)
      (fun err => Diagnostics_AddError "Client Error"
         ("Unable to handle non 200 status code on role creation, got error: " ++ err)) ;;
    tflog_Error "could not create role" [("body", resBody)] ;;
    return_
  else
  resBody <- check (io_ReadAll res)
    (fun err => Diagnostics_AddError "Client Error"
       ("Unable to create role, got error: " ++ err)) ;;
  cr <- check (Unmarshal_createRoleResponse dec resBody)
    (fun err => Diagnostics_AddError "Client Error"
       ("Unable to create role, got error: " ++ err)) ;;
  let data := RoleResourceModel.set_ID data (StringValue (createRoleResponse.ID cr)) in
  tflog_Debug "created a role resource, response was" [("id", createRoleResponse.ID cr)] ;;
  ds <- State_Set data ;;
  Diagnostics_Append ds.

(** As in [Create], [data.Scopes] is read before the diagnostics are
    tested. *)
Definition Read (rt : Runtime) (dec : Decoder) (fw : Framework) (r : t)
    (req_State : tfsdk RoleResourceModel.t) : Op RoleResourceModel.t unit :=
  let '(data, ds) := Get req_State in
  Diagnostics_Append ds ;;
  data <- deref (assigned data ds) ;;
  let '(scopes, ds) := ElementsAs fw (RoleResourceModel.Scopes data) in
  Diagnostics_Append ds ;;
  failed <- Diagnostics_HasError ;;
  if failed then return_ else
  pd <- deref (providerData r) ;;
  request <- check
    (http_NewRequestWithContext rt "GET"
       (ProviderData.endpoint pd ++ "/tenants/" ++
        ValueString (RoleResourceModel.Tenant data) ++ "/roles/" ++
        ValueString (RoleResourceModel.Name data)) None)
    (fun err => Diagnostics_AddError "Client Error"
       ("Unable to read tenant, got error: " ++ err)) ;;
  tflog_Debug "Setting basic auth" [] ;;
  let request := SetBasicAuth rt request (ProviderData.username pd) (ProviderData.password pd) in
  tflog_Debug "Making request" [] ;;
  done <- Do rt (ProviderData.client pd) request ;;
  res <- check done
    (fun err => Diagnostics_AddError "Client Error"
       ("Unable to read role, got error: " ++ err)) ;;
  if negb (res_StatusCode res =? 200)%Z then
    resBody <- check (io_ReadAll res)
      (fun err => Diagnostics_AddError "Client Error"
         ("Unable to handle non 200 status code on role read, got error: " ++ err)) ;;
    tflog_Error "could not read role" [("body", resBody)] ;;
    return_
  else
  resBody <- check (io_ReadAll res)
    (fun err => Diagnostics_AddError "Client Error"
       ("Unable to read role, got error: " ++ err)) ;;
  newRole <- check (Unmarshal_readRoleResponse dec resBody)
    (fun err => Diagnostics_AddError "Client Error"
       ("Unable to read tenant, got error: " ++ err)) ;;
  let data := RoleResourceModel.set_ID data (StringValue (readRoleResponse.ID newRole)) in
  let '(listValue, diagnostics) := ListValueFrom fw scopes in
  Diagnostics_Append diagnostics ;;
  let data := RoleResourceModel.set_Scopes data listValue in
  ds <- State_Set data ;;
  Diagnostics_Append ds.

Definition Update (rt : Runtime) (dec : Decoder) (r : t)
    (req_State req_Plan : tfsdk RoleResourceModel.t) : Op RoleResourceModel.t unit :=
  let '(old, ds) := Get req_State in
  Diagnostics_Append ds ;;
  let '(data, ds) := Get req_Plan in
  Diagnostics_Append ds ;;
  failed <- Diagnostics_HasError ;;
  if failed then return_ else
  marshalled <- check
    (json_Marshal rt (updateRequest.to_json
       {| updateRequest.Name := ValueString (RoleResourceModel.Name old);
          updateRequest.NewName := ValueString (RoleResourceModel.Name data) |}))
    (fun err => Diagnostics_AddError "Client Error"
       ("Unable to update tenant, got error: " ++ err)) ;;
  pd <- deref (providerData r) ;;
  request <- check
    (http_NewRequestWithContext rt "PATCH"
       (ProviderData.endpoint pd ++ "/tenants") (Some marshalled))
    (fun err => Diagnostics_AddError "Client Error"
       ("Unable to update tenant, got error: " ++ err)) ;;
  tflog_Debug "Setting basic auth" [] ;;
  let request := SetBasicAuth rt request (ProviderData.username pd) (ProviderData.password pd) in
  tflog_Debug "Making request" [] ;;
  done <- Do rt (ProviderData.client pd) request ;;
  res <- check done
    (fun err => Diagnostics_AddError "Client Error"
       ("Unable to update tenant, got error: " ++ err)) ;;
  if negb (res_StatusCode res =? 200)%Z then
    resBody <- check (io_ReadAll res)
      (fun err => Diagnostics_AddError "Client Error"
         ("Unable to handle non 200 status code on tenant update, got error: " ++ err)) ;;
    tflog_Error "could not update tenant" [("body", resBody)] ;;
    return_
  else
  resBody <- check (io_ReadAll res)
    (fun err => Diagnostics_AddError "Client Error"
       ("Unable to update tenant, got error: " ++ err)) ;;
  cr <- check (Unmarshal_updateResponse dec resBody)
    (fun err => Diagnostics_AddError "Client Error"
       ("Unable to update tenant, got error: " ++ err)) ;;
  let data := RoleResourceModel.set_ID data (StringValue (updateResponse.ID cr)) in
  tflog_Trace "updated a tenant resource" [] ;;
  ds <- State_Set data ;;
  Diagnostics_Append ds.

(** As in [TenantResource.Delete], the last two assignments are to the
    method's own copy of the descriptor. *)
Definition Delete (rt : Runtime) (dec : Decoder) (r : t)
    (req_State : tfsdk RoleResourceModel.t) : Op RoleResourceModel.t unit :=
  let '(data, ds) := Get req_State in
  Diagnostics_Append ds ;;
  failed <- Diagnostics_HasError ;;
  if failed then return_ else
  pd <- deref (providerData r) ;;
  request <- check
    (http_NewRequestWithContext rt "DELETE"
       (ProviderData.endpoint pd ++ "/tenants/" ++ name r) None)
    (fun err => Diagnostics_AddError "Client Error"
       ("Unable to read tenant, got error: " ++ err)) ;;
  tflog_Debug "Setting basic auth" [] ;;
  let request := SetBasicAuth rt request (ProviderData.username pd) (ProviderData.password pd) in
  tflog_Debug "Making request" [] ;;
  done <- Do rt (ProviderData.client pd) request ;;
  res <- check done
    (fun err => Diagnostics_AddError "Client Error"
       ("Unable to delete tenant, got error: " ++ err)) ;;
  if negb (res_StatusCode res =? 200)%Z then
    resBody <- check (io_ReadAll res)
      (fun err => Diagnostics_AddError "Client Error"
         ("Unable to handle non 200 status code on tenant deletion, got error: " ++ err)) ;;
    tflog_Error "could not delete tenant" [("body", resBody)] ;;
    return_
  else
  resBody <- check (io_ReadAll res)
    (fun err => Diagnostics_AddError "Client Error"
       ("Unable to delete tenant, got error: " ++ err)) ;;
  newTenant <- check (Unmarshal_readResponse dec resBody)
    (fun err => Diagnostics_AddError "Client Error"
       ("Unable to delete tenant, got error: " ++ err)) ;;
  let data := RoleResourceModel.set_ID data (StringValue (readResponse.ID newTenant)) in
  let data := RoleResourceModel.set_Name data (StringValue (readResponse.Name newTenant)) in
  pure tt.

End RoleResource.

(** [NewRoleResource] returns [&RoleResource{}]. *)
Definition NewRoleResource : RoleResource.t :=
  {| RoleResource.providerData := None; RoleResource.name := EmptyString |}.

(** ** tenant_data_source.go *)

Module TenantDataSource.

Record t := {
  client : option http_Client;
  endpoint : string;
  username : string;
  password : string
}.

Definition Metadata (d : t) (req_ProviderTypeName : string) : string :=
  req_ProviderTypeName ++ "_tenant".

Definition Configure (d : t) (req_ProviderData : option any) (ds : Diagnostics)
    : t * Diagnostics :=
  match req_ProviderData with
  | None => (d, ds)
  | Some (any_other typeName) =>
      (d, Append ds [ErrorDiagnostic "Unexpected ProviderData Source Configure Type"
                       ("Expected *http.Client, got: " ++ typeName ++
                        ". Please report this issue to the provider developers.")])
  | Some (any_ProviderData data) =>
      ({| client := ProviderData.client data;
          endpoint := ProviderData.endpoint data;
          username := ProviderData.username data;
          password := ProviderData.password data |}, ds)
  end.

Definition Read (rt : Runtime) (dec : Decoder) (d : t)
    (req_Config : tfsdk TenantDataSourceModel.t) : Op TenantDataSourceModel.t unit :=
  let '(data, ds) := Get req_Config in
  Diagnostics_Append ds ;;
  failed <- Diagnostics_HasError ;;
  if failed then return_ else
  request <- check
    (http_NewRequestWithContext rt "GET"
       (endpoint d ++ "/tenants/" ++ ValueString (TenantDataSourceModel.Name data)) None)
    (fun err => Diagnostics_AddError "Client Error"
       ("Unable to read tenant, got error: " ++ err)) ;;
  tflog_Debug "Setting basic auth" [] ;;
  let request := SetBasicAuth rt request (username d) (password d) in
  tflog_Debug "Making request" [] ;;
  done <- Do rt (client d) request ;;
  res <- check done
    (fun err => Diagnostics_AddError "Client Error"
       ("Unable to read tenant, got error: " ++ err)) ;;
  if negb (res_StatusCode res =? 200)%Z then
    resBody <- check (io_ReadAll res)
      (fun err => Diagnostics_AddError "Client Error"
         ("Unable to handle non 200 status code on tenant read, got error: " ++ err)) ;;
    tflog_Error "could not read tenant" [("body", resBody)] ;;
    return_
  else
  resBody <- check (io_ReadAll res)
    (fun err => Diagnostics_AddError "Client Error"
       ("Unable to read tenant, got error: " ++ err)) ;;
  newTenant <- check (Unmarshal_tenantDataReadResponse dec resBody)
    (fun err => Diagnostics_AddError "Client Error"
       ("Unable to read tenant, got error: " ++ err)) ;;
  let data := TenantDataSourceModel.set_ID data
                (StringValue (tenantDataReadResponse.ID newTenant)) in
  tflog_Trace "read a data source" [] ;;
  ds <- State_Set data ;;
  Diagnostics_Append ds.

End TenantDataSource.

(** [NewTenantDataSource] returns [&TenantDataSource{}]. *)
Definition NewTenantDataSource : TenantDataSource.t :=
  {| TenantDataSource.client := None; TenantDataSource.endpoint := EmptyString;
     TenantDataSource.username := EmptyString; TenantDataSource.password := EmptyString |}.

(** ** The provider *)

(** The interfaces [resource.Resource] and [datasource.DataSource], with
    the types of this package that implement them. *)
Inductive Resource :=
| Resource_Tenant (r : TenantResource.t)
| Resource_Role (r : RoleResource.t).

Inductive DataSource :=
| DataSource_Tenant (d : TenantDataSource.t).

Definition Resource_Metadata (x : Resource) (req_ProviderTypeName : string) : string :=
  match x with
  | Resource_Tenant r => TenantResource.Metadata r req_ProviderTypeName
  | Resource_Role r => RoleResource.Metadata r req_ProviderTypeName
  end.

Module AuthProxy.

Record t := { version : string }.

Definition Metadata (p : t) : string * string := ("authproxy", version p).

Record ConfigureResponse := {
  DataSourceData : option any;
  ResourceData : option any;
  Diags : Diagnostics
}.

Definition Configure (p : t) (req_Config : tfsdk Model.t) (resp : ConfigureResponse)
    : ConfigureResponse :=
  let '(data, ds) := Get req_Config in
  let diags := Append (Diags resp) ds in
  if HasError diags then
    {| DataSourceData := DataSourceData resp; ResourceData := ResourceData resp;
       Diags := diags |}
  else
    let pd :=
      {| ProviderData.client := Some http_DefaultClient;
         ProviderData.endpoint := ValueString (Model.Endpoint data);
         ProviderData.password := ValueString (Model.Password data);
         ProviderData.username := ValueString (Model.Username data) |} in
    {| DataSourceData := Some (any_ProviderData pd);
       ResourceData := Some (any_ProviderData pd);
       Diags := diags |}.

Definition Resources (p : t) : list (unit -> Resource) :=
  [fun _ => Resource_Tenant NewTenantResource].

Definition DataSources (p : t) : list (unit -> DataSource) :=
  [fun _ => DataSource_Tenant NewTenantDataSource].

End AuthProxy.

(** [New] *)
Definition New (version : string) : unit -> AuthProxy.t :=
  fun _ => {| AuthProxy.version := version |}.

(** ** Calls and what they leave behind *)

(** The three kinds of descriptor. *)
Inductive Descriptor :=
| D_Tenant (m : TenantResourceModel.t)
| D_Role (m : RoleResourceModel.t)
| D_TenantData (m : TenantDataSourceModel.t).

Definition Descriptor_ID (d : Descriptor) : types_String :=
  match d with
  | D_Tenant m => TenantResourceModel.ID m
  | D_Role m => RoleResourceModel.ID m
  | D_TenantData m => TenantDataSourceModel.ID m
  end.

(** One invocation of one of the nine methods: the receiver, what the
    request carries, and the state the response starts with. *)
Inductive Call :=
| TenantCreate (r : TenantResource.t) (req_Plan : tfsdk TenantResourceModel.t)
    (state : option TenantResourceModel.t)
| TenantRead (r : TenantResource.t) (req_State : tfsdk TenantResourceModel.t)
    (state : option TenantResourceModel.t)
| TenantUpdate (r : TenantResource.t) (req_State req_Plan : tfsdk TenantResourceModel.t)
    (state : option TenantResourceModel.t)
| TenantDelete (r : TenantResource.t) (req_State : tfsdk TenantResourceModel.t)
    (state : option TenantResourceModel.t)
| RoleCreate (r : RoleResource.t) (req_Plan : tfsdk RoleResourceModel.t)
    (state : option RoleResourceModel.t)
| RoleRead (r : RoleResource.t) (req_State : tfsdk RoleResourceModel.t)
    (state : option RoleResourceModel.t)
| RoleUpdate (r : RoleResource.t) (req_State req_Plan : tfsdk RoleResourceModel.t)
    (state : option RoleResourceModel.t)
| RoleDelete (r : RoleResource.t) (req_State : tfsdk RoleResourceModel.t)
    (state : option RoleResourceModel.t)
| TenantDataRead (d : TenantDataSource.t) (req_Config : tfsdk TenantDataSourceModel.t)
    (state : option TenantDataSourceModel.t).

(** What the caller of a method can observe afterwards. *)
Record Summary := {
  before : option Descriptor;
  after : option Descriptor;
  diags : Diagnostics;
  logged : list LogEntry;
  sent : list Request;
  panicked : bool
}.

Definition summarize {M} (inj : M -> Descriptor) (c : Op M unit)
    (state : option M) (ds0 : Diagnostics) : Summary :=
  let out := c (start state ds0) in
  {| before := option_map inj state;
     after := option_map inj (resp_State (snd out));
     diags := resp_Diagnostics (snd out);
     logged := tflog (snd out);
     sent := wire (snd out);
     panicked := match fst out with Panic => true | _ => false end |}.

(** The call made on a response whose diagnostics are [ds0]. *)
Definition invoke (rt : Runtime) (dec : Decoder) (fw : Framework)
    (c : Call) (ds0 : Diagnostics) : Summary :=
  match c with
  | TenantCreate r p st =>
      summarize D_Tenant (TenantResource.Create rt dec r p) st ds0
  | TenantRead r s st =>
      summarize D_Tenant (TenantResource.Read rt dec r s) st ds0
  | TenantUpdate r s p st =>
      summarize D_Tenant (TenantResource.Update rt dec r s p) st ds0
  | TenantDelete r s st =>
      summarize D_Tenant (TenantResource.Delete rt dec r s) st ds0
  | RoleCreate r p st =>
      summarize D_Role (RoleResource.Create rt dec fw r p) st ds0
  | RoleRead r s st =>
      summarize D_Role (RoleResource.Read rt dec fw r s) st ds0
  | RoleUpdate r s p st =>
      summarize D_Role (RoleResource.Update rt dec r s p) st ds0
  | RoleDelete r s st =>
      summarize D_Role (RoleResource.Delete rt dec r s) st ds0
  | TenantDataRead d c st =>
      summarize D_TenantData (TenantDataSource.Read rt dec d c) st ds0
  end.

(** Whether a body decodes with the success schema of the call. *)
Definition decodes (dec : Decoder) (c : Call) (body : bytes) : bool :=
  match c with
  | TenantCreate _ _ _ => is_ok (Unmarshal_createResponse dec body)
  | TenantRead _ _ _ => is_ok (Unmarshal_readResponse dec body)
  | TenantUpdate _ _ _ _ => is_ok (Unmarshal_updateResponse dec body)
  | TenantDelete _ _ _ => is_ok (Unmarshal_readResponse dec body)
  | RoleCreate _ _ _ => is_ok (Unmarshal_createRoleResponse dec body)
  | RoleRead _ _ _ => is_ok (Unmarshal_readRoleResponse dec body)
  | RoleUpdate _ _ _ _ => is_ok (Unmarshal_updateResponse dec body)
  | RoleDelete _ _ _ => is_ok (Unmarshal_readResponse dec body)
  | TenantDataRead _ _ _ => is_ok (Unmarshal_tenantDataReadResponse dec body)
  end.

(** How the exchange of a call went, read off the request it sent and the
    runtime's answer to it.  [NotDispatched]: no request reached the
    client (the descriptor could not be read, the body could not be
    encoded or the URL was refused, or the provider data is missing).
    [RemoteRejected] carries the status and what reading the body gave. *)
Inductive Verdict :=
| NotDispatched
| TransportError
| RemoteRejected (status : Z) (body : result bytes)
| BodyReadError
| DecodeError
| Completed.

Definition verdict (rt : Runtime) (schema : bytes -> bool) (requests : list Request)
    : Verdict :=
  match requests with
  | [] => NotDispatched
  | request :: _ =>
      match client_Do rt request with
      | Err _ => TransportError
      | Ok res =>
          if (res_StatusCode res =? 200)%Z then
            match io_ReadAll res with
            | Err _ => BodyReadError
            | Ok body => if schema body then Completed else DecodeError
            end
          else RemoteRejected (res_StatusCode res) (io_ReadAll res)
      end
  end.

Definition exchange (rt : Runtime) (dec : Decoder) (fw : Framework)
    (c : Call) (ds0 : Diagnostics) : Verdict :=
  verdict rt (decodes dec c) (sent (invoke rt dec fw c ds0)).

(** The diagnostics the framework returns while the call reads its
    descriptors, before anything is sent.  The role create and read
    reach [ElementsAs] only with a descriptor, that is when [Get]
    returned no error. *)
Definition read_diags (fw : Framework) (c : Call) : Diagnostics :=
  match c with
  | TenantCreate _ p _ => get_diags p
  | TenantRead _ s _ => get_diags s
  | TenantUpdate _ s p _ => get_diags s ++ get_diags p
  | TenantDelete _ s _ => get_diags s
  | RoleCreate _ p _ =>
      get_diags p ++
      (if HasError (get_diags p) then []
       else snd (ElementsAs fw (RoleResourceModel.Scopes (raw p))))
  | RoleRead _ s _ =>
      get_diags s ++
      (if HasError (get_diags s) then []
       else snd (ElementsAs fw (RoleResourceModel.Scopes (raw s))))
  | RoleUpdate _ s p _ => get_diags s ++ get_diags p
  | RoleDelete _ s _ => get_diags s
  | TenantDataRead _ c _ => get_diags c
  end%list.

(** The user name and password the receiver of the call was configured
    with. *)
Definition credentials (c : Call) : option (string * string) :=
  let of_provider (p : option ProviderData.t) :=
    option_map (fun pd => (ProviderData.username pd, ProviderData.password pd)) p in
  match c with
  | TenantCreate r _ _ | TenantRead r _ _
  | TenantUpdate r _ _ _ | TenantDelete r _ _ =>
      of_provider (TenantResource.providerData r)
  | RoleCreate r _ _ | RoleRead r _ _
  | RoleUpdate r _ _ _ | RoleDelete r _ _ =>
      of_provider (RoleResource.providerData r)
  | TenantDataRead d _ _ =>
      Some (TenantDataSource.username d, TenantDataSource.password d)
  end.

(** The id the success schema of the call finds in a body. *)
Definition decoded_ID (dec : Decoder) (c : Call) (body : bytes) : option string :=
  let id_of {A} (get : A -> string) (x : result A) :=
    match x with Ok a => Some (get a) | Err _ => None end in
  match c with
  | TenantCreate _ _ _ => id_of createResponse.ID (Unmarshal_createResponse dec body)
  | TenantRead _ _ _ => id_of readResponse.ID (Unmarshal_readResponse dec body)
  | TenantUpdate _ _ _ _ => id_of updateResponse.ID (Unmarshal_updateResponse dec body)
  | TenantDelete _ _ _ => id_of readResponse.ID (Unmarshal_readResponse dec body)
  | RoleCreate _ _ _ =>
      id_of createRoleResponse.ID (Unmarshal_createRoleResponse dec body)
  | RoleRead _ _ _ => id_of readRoleResponse.ID (Unmarshal_readRoleResponse dec body)
  | RoleUpdate _ _ _ _ => id_of updateResponse.ID (Unmarshal_updateResponse dec body)
  | RoleDelete _ _ _ => id_of readResponse.ID (Unmarshal_readResponse dec body)
  | TenantDataRead _ _ _ =>
      id_of tenantDataReadResponse.ID (Unmarshal_tenantDataReadResponse dec body)
  end.

(** The calls that end in [resp.State.Set]: all but the two deletes. *)
Definition stores (c : Call) : bool :=
  match c with
  | TenantDelete _ _ _ | RoleDelete _ _ _ => false
  | _ => true
  end.

(** What the tenant reconciler sees of a role descriptor: its name and
    id. *)
Definition tenant_view (m : tfsdk RoleResourceModel.t) : tfsdk TenantResourceModel.t :=
  {| raw := {| TenantResourceModel.Name := RoleResourceModel.Name (raw m);
               TenantResourceModel.ID := RoleResourceModel.ID (raw m) |};
     get_diags := get_diags m |}.

Definition as_tenant_reconciler (r : RoleResource.t) : TenantResource.t :=
  {| TenantResource.providerData := RoleResource.providerData r;
     TenantResource.name := RoleResource.name r |}.

(** The role reconcilers the framework can hold: the one [NewRoleResource]
    returns, after any number of [Configure] calls. *)
Inductive Reachable : RoleResource.t -> Prop :=
| Reachable_new : Reachable NewRoleResource
| Reachable_Configure r x ds :
    Reachable r -> Reachable (fst (RoleResource.Configure r x ds)).

(** ** Receivers that were configured *)

(** Whether the receiver of the call holds provider data with a client:
    what [Configure] leaves once the provider is configured. *)
Definition configured (c : Call) : bool :=
  let has_client (p : option ProviderData.t) :=
    match p with
    | Some pd => match ProviderData.client pd with Some _ => true | None => false end
    | None => false
    end in
  match c with
  | TenantCreate r _ _ | TenantRead r _ _
  | TenantUpdate r _ _ _ | TenantDelete r _ _ =>
      has_client (TenantResource.providerData r)
  | RoleCreate r _ _ | RoleRead r _ _
  | RoleUpdate r _ _ _ | RoleDelete r _ _ =>
      has_client (RoleResource.providerData r)
  | TenantDataRead d _ _ =>
      match TenantDataSource.client d with Some _ => true | None => false end
  end.

(** ** Test doubles *)

Module Fake.

Definition quote : string := String (Ascii.ascii_of_nat 34) EmptyString.

Fixpoint render (j : json) : string :=
  match j with
  | JNull => "null"
  | JString s => quote ++ s ++ quote
  | JArray items => "[" ++ String.concat "," (map render items) ++ "]"
  | JObject fields =>
      "{" ++ String.concat ","
               (map (fun kv => quote ++ fst kv ++ quote ++ ":" ++ render (snd kv)) fields)
          ++ "}"
  end.

(** A runtime that encodes with [render], accepts every URL, leaves the
    credentials unencoded and answers as [answer] says. *)
Definition runtime (answer : Request -> result Response) : Runtime :=
  {| json_Marshal := fun j => Ok (render j);
     url_Parse := fun _ => None;
     base64_EncodeToString := fun s => s;
     client_Do := answer;
     fmt_GoSyntax := fun _ => "&provider.ProviderData{}" |}.

(** A server that answers every request with the same status and body. *)
Definition always (status : Z) (body : bytes) : Request -> result Response :=
  fun _ => Ok {| res_StatusCode := status; res_Body := Ok body |}.

(** A server that cannot be reached. *)
Definition offline : Request -> result Response :=
  fun _ => Err "dial tcp: connection refused".

(** A server whose body breaks off. *)
Definition truncated (status : Z) : Request -> result Response :=
  fun _ => Ok {| res_StatusCode := status; res_Body := Err "unexpected EOF" |}.

(** The runtime of [runtime], except that no URL parses. *)
Definition no_url (answer : Request -> result Response) : Runtime :=
  {| json_Marshal := json_Marshal (runtime answer);
     url_Parse := fun _ => Some "invalid control character in URL";
     base64_EncodeToString := base64_EncodeToString (runtime answer);
     client_Do := answer;
     fmt_GoSyntax := fmt_GoSyntax (runtime answer) |}.

(** A decoder that takes the whole body for the id and refuses the empty
    body; what else a read response carries is made up. *)
Definition decode {A} (build : string -> A) (body : bytes) : result A :=
  match body with
  | EmptyString => Err "unexpected end of JSON input"
  | _ => Ok (build body)
  end.

Definition decoder : Decoder :=
  {| Unmarshal_createResponse := decode (fun b => {| createResponse.ID := b |});
     Unmarshal_updateResponse := decode (fun b => {| updateResponse.ID := b |});
     Unmarshal_readResponse :=
       decode (fun b => {| readResponse.ID := b; readResponse.Name := "remote" |});
     Unmarshal_createRoleResponse :=
       decode (fun b => {| createRoleResponse.ID := b |});
     Unmarshal_readRoleResponse :=
       decode (fun b => {| readRoleResponse.ID := b;
                           readRoleResponse.Name := "remote";
                           readRoleResponse.Tenant := "elsewhere";
                           readRoleResponse.Scopes := Some ["admin"] |});
     Unmarshal_tenantDataReadResponse :=
       decode (fun b => {| tenantDataReadResponse.ID := b;
                           tenantDataReadResponse.Name := "remote" |}) |}.

Fixpoint known (l : list types_String) : option (list string) :=
  match l with
  | [] => Some []
  | StringValue s :: l' => option_map (cons s) (known l')
  | _ => None
  end.

Definition unhandled : Diagnostic :=
  ErrorDiagnostic "Value Conversion Error" "unhandled null or unknown value".

Definition framework : Framework :=
  {| ElementsAs := fun l =>
       match l with
       | ListNull => (None, [])
       | ListUnknown => (None, [unhandled])
       | ListValue elems =>
           match known elems with
           | Some xs => (Some xs, [])
           | None => (None, [unhandled])
           end
       end;
     ListValueFrom := fun s =>
       match s with
       | None => (ListNull, [])
       | Some xs => (ListValue (map StringValue xs), [])
       end |}.

Definition provider : ProviderData.t :=
  {| ProviderData.client := Some http_DefaultClient;
     ProviderData.endpoint := "https://auth.example";
     ProviderData.username := "admin";
     ProviderData.password := "hunter2" |}.

Definition tenants : TenantResource.t :=
  fst (TenantResource.Configure NewTenantResource (Some (any_ProviderData provider)) []).

Definition roles : RoleResource.t :=
  fst (RoleResource.Configure NewRoleResource (Some (any_ProviderData provider)) []).

Definition source : TenantDataSource.t :=
  fst (TenantDataSource.Configure NewTenantDataSource (Some (any_ProviderData provider)) []).

Definition clean {M} (m : M) : tfsdk M := {| raw := m; get_diags := [] |}.

Definition lidl : TenantResourceModel.t :=
  {| TenantResourceModel.Name := StringValue "lidl";
     TenantResourceModel.ID := StringUnknown |}.

Definition lidl_known : TenantResourceModel.t :=
  {| TenantResourceModel.Name := StringValue "lidl";
     TenantResourceModel.ID := StringValue "7" |}.

Definition editor : RoleResourceModel.t :=
  {| RoleResourceModel.ID := StringUnknown;
     RoleResourceModel.Name := StringValue "editor";
     RoleResourceModel.Tenant := StringValue "lidl";
     RoleResourceModel.Scopes := ListValue [StringValue "read"; StringValue "write"] |}.

Definition editor_known : RoleResourceModel.t :=
  RoleResourceModel.set_ID editor (StringValue "42").

Definition auditor : RoleResourceModel.t :=
  {| RoleResourceModel.ID := StringValue "43";
     RoleResourceModel.Name := StringValue "auditor";
     RoleResourceModel.Tenant := StringValue "aldi";
     RoleResourceModel.Scopes := ListValue [StringValue "read"] |}.

End Fake.

(** ** Import *)

(** The descriptors of the empty state an import starts from: every
    attribute null. *)
Definition TenantResourceModel_null : TenantResourceModel.t :=
  {| TenantResourceModel.Name := StringNull; TenantResourceModel.ID := StringNull |}.

Definition RoleResourceModel_null : RoleResourceModel.t :=
  {| RoleResourceModel.ID := StringNull; RoleResourceModel.Name := StringNull;
     RoleResourceModel.Tenant := StringNull; RoleResourceModel.Scopes := ListNull |}.

(** [resource.ImportStatePassthroughID(ctx, path.Root(id), req, resp)]:
    the framework writes the import identifier to the attribute [id] of
    the response state and leaves the other attributes as they are. *)
Definition ImportStatePassthroughID {M} (null : M) (set_ID : M -> types_String -> M)
    (req_ID : string) : Op M unit :=
  fun w =>
    let d := match resp_State w with Some d => d | None => null end in
    (Next tt,
     {| resp_State := Some (set_ID d (StringValue req_ID));
        resp_Diagnostics := resp_Diagnostics w;
        tflog := tflog w; wire := wire w |}).

Definition TenantResource_ImportState (r : TenantResource.t) (req_ID : string)
    : Op TenantResourceModel.t unit :=
  ImportStatePassthroughID TenantResourceModel_null TenantResourceModel.set_ID req_ID.

Definition RoleResource_ImportState (r : RoleResource.t) (req_ID : string)
    : Op RoleResourceModel.t unit :=
  ImportStatePassthroughID RoleResourceModel_null RoleResourceModel.set_ID req_ID.

(** ** More about calls *)

(** The tenant reconcilers the framework can hold: the one
    [NewTenantResource] returns, after any number of [Configure] calls. *)
Inductive TenantReachable : TenantResource.t -> Prop :=
| TenantReachable_new : TenantReachable NewTenantResource
| TenantReachable_Configure r x ds :
    TenantReachable r -> TenantReachable (fst (TenantResource.Configure r x ds)).

(** The diagnostics of the conversion a call makes after its exchange:
    only the role read rebuilds its list of scopes. *)
Definition convert_diags (fw : Framework) (c : Call) : Diagnostics :=
  match c with
  | RoleRead _ s _ =>
      snd (ListValueFrom fw (fst (ElementsAs fw (RoleResourceModel.Scopes (raw s)))))
  | _ => []
  end.

(** Whether the call dereferences a descriptor that [Get] did not
    assign: the role create and read do when [Get] returns an error. *)
Definition nil_data (c : Call) : bool :=
  match c with
  | RoleCreate _ p _ => HasError (get_diags p)
  | RoleRead _ s _ => HasError (get_diags s)
  | _ => false
  end.

(** The endpoint the receiver of the call was configured with. *)
Definition base_url (c : Call) : option string :=
  match c with
  | TenantCreate r _ _ | TenantRead r _ _
  | TenantUpdate r _ _ _ | TenantDelete r _ _ =>
      option_map ProviderData.endpoint (TenantResource.providerData r)
  | RoleCreate r _ _ | RoleRead r _ _
  | RoleUpdate r _ _ _ | RoleDelete r _ _ =>
      option_map ProviderData.endpoint (RoleResource.providerData r)
  | TenantDataRead d _ _ => Some (TenantDataSource.endpoint d)
  end.

(** * Proofs *)

Ltac unfold_ops :=
  cbv [invoke exchange summarize start read_diags
       TenantResource.Create TenantResource.Read TenantResource.Update TenantResource.Delete
       RoleResource.Create RoleResource.Read RoleResource.Update RoleResource.Delete
       TenantDataSource.Read Get assigned
       bind pure return_ deref check Do State_Set io_ReadAll
       Diagnostics_Append Diagnostics_AddError Diagnostics_HasError
       tflog_write tflog_Debug tflog_Error tflog_Trace
       http_NewRequestWithContext] in *.

Ltac tidy :=
  cbn [fst snd resp_State resp_Diagnostics tflog wire
       after before sent diags logged panicked app option_map] in *.

(** One case split on the innermost call whose result the code tests. *)
Ltac branch :=
  match goal with
  | |- context [match ?x with _ => _ end] =>
      lazymatch x with
      | context [match _ with _ => _ end] => fail
      | _ => destruct x eqn:?
      end
  | H : context [match ?x with _ => _ end] |- _ =>
      lazymatch x with
      | context [match _ with _ => _ end] => fail
      | _ => destruct x eqn:?
      end
  end.

Ltac paths := unfold_ops; tidy; repeat (branch; tidy).

(** Replays the answers of the runtime in the verdict. *)
Ltac replay :=
  cbv [verdict decodes decoded_ID io_ReadAll is_ok] in *;
  rewrite ?negb_true_iff, ?negb_false_iff in *;
  repeat match goal with
         | H : ?x = _ |- context [?x] => rewrite H
         | H : ?x = _, H' : context [?x] |- _ => rewrite H in H'
         end.

(** ** Helper lemmas *)

Lemma append_empty (s : string) : s ++ EmptyString = s.
Proof. induction s as [|a s IH]; cbn; [reflexivity | now rewrite IH]. Qed.

Lemma Header_Get_Set (k v : string) (h : Header) :
  Header_Get k (Header_Set k v h) = Some v.
Proof. unfold Header_Set. cbn. now rewrite String.eqb_refl. Qed.

Lemma SetBasicAuth_Authorization rt request u p :
  Header_Get "Authorization" (req_Header (SetBasicAuth rt request u p)) =
  Some ("Basic " ++ basicAuth rt u p).
Proof. unfold SetBasicAuth. cbn [req_Header]. apply Header_Get_Set. Qed.

Lemma Reachable_name r : Reachable r -> RoleResource.name r = EmptyString.
Proof.
  induction 1 as [|r x ds _ IH]; [reflexivity|].
  destruct x as [[pd|ty]|]; cbn; assumption.
Qed.

Lemma singleton_inj {A} (x y : A) : [x] = [y] -> x = y.
Proof. congruence. Qed.

Lemma Ok_inj {A} (x y : A) : Ok x = Ok y -> x = y.
Proof. congruence. Qed.

Lemma pair_inj {A B} (a a' : A) (b b' : B) : (a, b) = (a', b') -> a = a' /\ b = b'.
Proof. intros H. split; congruence. Qed.

(** Two answers to the same question are the same answer. *)
Ltac same_answers :=
  repeat match goal with
         | H : Ok _ = Ok _ |- _ => apply Ok_inj in H; subst
         | H : (_, _) = (_, _) |- _ => apply pair_inj in H; destruct H; subst
         end;
  try congruence.

Lemma HasError_app (a b : Diagnostics) :
  HasError (a ++ b)%list = HasError a || HasError b.
Proof. apply existsb_app. Qed.

(** A call sends at most one request. *)
Lemma at_most_one_request rt dec fw c ds0 :
  sent (invoke rt dec fw c ds0) = [] \/
  exists request, sent (invoke rt dec fw c ds0) = [request].
Proof. destruct c; paths; eauto. Qed.

(** What [Append] does to the diagnostics held. *)

Lemma Contains_In (ds : Diagnostics) (d : Diagnostic) :
  Contains ds d = true -> exists held, In held ds /\ Diagnostic_Equal held d = true.
Proof. unfold Contains. rewrite existsb_exists. trivial. Qed.

Lemma Diagnostic_Equal_is_error (a b : Diagnostic) :
  Diagnostic_Equal a b = true -> is_error a = is_error b.
Proof.
  unfold Diagnostic_Equal, is_error.
  destruct (severity a), (severity b); intros H; (reflexivity || discriminate H).
Qed.

Lemma Diagnostic_Equal_eq (a b : Diagnostic) :
  Diagnostic_Equal a b = true -> a = b.
Proof.
  destruct a as [sa ma da], b as [sb mb db]. unfold Diagnostic_Equal. cbn.
  destruct sa, sb; intros H; try discriminate H.
  all: apply andb_true_iff in H; destruct H as [H1 H2].
  all: apply String.eqb_eq in H1; apply String.eqb_eq in H2; now subst.
Qed.

Lemma HasError_Append (ds new : Diagnostics) :
  HasError (Append ds new) = HasError ds || HasError new.
Proof.
  revert ds. induction new as [|d rest IH]; intros ds; cbn [Append].
  - cbn. now rewrite orb_false_r.
  - rewrite IH. cbn [HasError existsb]. fold (HasError rest).
    destruct (Contains ds d) eqn:E.
    + apply Contains_In in E. destruct E as [held [Hin He]].
      apply Diagnostic_Equal_is_error in He.
      destruct (is_error d) eqn:Ed; cbn; [|reflexivity].
      assert (HasError ds = true) as ->; [|reflexivity].
      unfold HasError. rewrite existsb_exists. exists held. now rewrite He.
    + unfold HasError at 1. rewrite existsb_app. cbn. fold (HasError ds).
      now rewrite orb_false_r, orb_assoc.
Qed.

Lemma Append_app (ds a b : Diagnostics) :
  Append ds (a ++ b)%list = Append (Append ds a) b.
Proof.
  revert ds. induction a as [|d a IH]; intros ds; cbn; [reflexivity | apply IH].
Qed.

Lemma extends_refl a : extends a a.
Proof. exists []. now rewrite app_nil_r. Qed.

Lemma extends_trans a b c : extends a b -> extends b c -> extends a c.
Proof. intros [x ->] [y ->]. exists (x ++ y)%list. now rewrite app_assoc. Qed.

Lemma extends_Append ds new : extends ds (Append ds new).
Proof.
  revert ds. induction new as [|d rest IH]; intros ds; cbn [Append].
  - apply extends_refl.
  - eapply extends_trans; [|apply IH].
    destruct (Contains ds d); [apply extends_refl | now exists [d]].
Qed.

Lemma extends_Append_r a b new : extends a b -> extends a (Append b new).
Proof. intros H. eapply extends_trans; [exact H | apply extends_Append]. Qed.

Lemma extends_In a b d : extends a b -> In d a -> In d b.
Proof. intros [x ->] H. apply in_or_app. now left. Qed.

Lemma In_Append ds new d : In d new -> In d (Append ds new).
Proof.
  revert ds. induction new as [|e rest IH]; intros ds; cbn [Append In]; [tauto|].
  intros [->|H]; [|now apply IH].
  eapply extends_In; [apply extends_Append|].
  destruct (Contains ds d) eqn:E.
  - apply Contains_In in E. destruct E as [held [Hin He]].
    apply Diagnostic_Equal_eq in He. now subst.
  - apply in_or_app. right. now left.
Qed.

(** When nothing new repeats a diagnostic, [Append] is concatenation. *)
Lemma Append_fresh (ds new : Diagnostics) :
  NoDup (ds ++ new)%list -> Append ds new = (ds ++ new)%list.
Proof.
  revert ds. induction new as [|d rest IH]; intros ds H; cbn [Append].
  - now rewrite app_nil_r.
  - destruct (Contains ds d) eqn:E.
    + apply Contains_In in E. destruct E as [held [Hin He]].
      apply Diagnostic_Equal_eq in He. subst held.
      apply NoDup_remove_2 in H. exfalso. apply H. apply in_or_app. now left.
    + rewrite IH; rewrite <- app_assoc; [reflexivity | exact H].
Qed.

(** Two appends hold an error exactly when the concatenation does. *)
Lemma HasError_Append_twice (a b c : Diagnostics) :
  HasError (Append (Append a b) c) = HasError ((a ++ b) ++ c)%list.
Proof. now rewrite !HasError_Append, !HasError_app. Qed.

(** Whatever the exchange, a call adds to the diagnostics it was given. *)
Lemma diagnostics_grow rt dec fw c ds0 :
  exists added, diags (invoke rt dec fw c ds0) = (ds0 ++ added)%list.
Proof.
  change (extends ds0 (diags (invoke rt dec fw c ds0))).
  destruct c; paths; repeat apply extends_Append_r; apply extends_refl.
Qed.

(** ** C4 *)

(** C4: whenever the exchange of a call is not completed (nothing was
    dispatched, the transport failed, the status was not 200, the body
    could not be read or did not decode), the stored descriptor after the
    call is the one before it, and so is its id. *)
Theorem failed_exchange_keeps_descriptor rt dec fw c ds0 :
  exchange rt dec fw c ds0 <> Completed ->
  after (invoke rt dec fw c ds0) = before (invoke rt dec fw c ds0) /\
  option_map Descriptor_ID (after (invoke rt dec fw c ds0)) =
  option_map Descriptor_ID (before (invoke rt dec fw c ds0)).
Proof.
  intros H.
  assert (E : after (invoke rt dec fw c ds0) = before (invoke rt dec fw c ds0)).
  { revert H. destruct c; paths; try reflexivity; replay; intros; congruence. }
  split; [exact E | now rewrite E].
Qed.

Lemma failed_exchange_keeps_descriptor_witness :
  let rt := Fake.runtime (Fake.always 404 "no such tenant") in
  let c := TenantRead Fake.tenants (Fake.clean Fake.lidl_known) (Some Fake.lidl_known) in
  after (invoke rt Fake.decoder Fake.framework c []) =
  before (invoke rt Fake.decoder Fake.framework c []) /\
  option_map Descriptor_ID (after (invoke rt Fake.decoder Fake.framework c [])) =
  option_map Descriptor_ID (before (invoke rt Fake.decoder Fake.framework c [])).
Proof.
  apply failed_exchange_keeps_descriptor. vm_compute. discriminate.
Defined.

(** ** C1 *)

(** C1 (what the code does): when the remote answers with a status other
    than 200 and the body can be read, the call returns with the
    diagnostics it started with and those of reading its descriptors
    appended, none of them an error: the rejection itself leaves no
    diagnostic, only a log entry. *)
Theorem rejected_status_adds_no_diagnostic rt dec fw c ds0 status body :
  exchange rt dec fw c ds0 = RemoteRejected status (Ok body) ->
  diags (invoke rt dec fw c ds0) = Append ds0 (read_diags fw c) /\
  HasError (diags (invoke rt dec fw c ds0)) = false /\
  exists m, In {| level := LevelError; msg := m; fields := [("body", body)] |}
               (logged (invoke rt dec fw c ds0)).
Proof.
  destruct c; paths; replay; intros; try congruence.
  all: rewrite ?Append_app in *; split; [reflexivity|split; [congruence|]].
  all: match goal with H : RemoteRejected _ _ = _ |- _ => inversion H; subst end.
  all: eexists; cbn; eauto.
Qed.


Lemma rejected_status_adds_no_diagnostic_witness :
  let rt := Fake.runtime (Fake.always 500 "boom") in
  let c := TenantCreate Fake.tenants (Fake.clean Fake.lidl) None in
  diags (invoke rt Fake.decoder Fake.framework c []) =
  Append [] (read_diags Fake.framework c) /\
  HasError (diags (invoke rt Fake.decoder Fake.framework c [])) = false /\
  exists m, In {| level := LevelError; msg := m; fields := [("body", "boom")] |}
               (logged (invoke rt Fake.decoder Fake.framework c [])).
Proof.
  apply (@rejected_status_adds_no_diagnostic _ _ _ _ _ 500%Z "boom"). reflexivity.
Defined.

(** ** C2 *)

(** C2 (what the code does): a role update puts on the wire exactly what
    a tenant update puts for the same old and new names: a PATCH of
    [/tenants] whose body is the tenant rename [{tenant, new_tenant}];
    the role's tenant and scopes are not in it. *)
Theorem role_update_sends_tenant_rename rt dec fw r s p st tst ds0 :
  sent (invoke rt dec fw (RoleUpdate r s p st) ds0) =
  sent (invoke rt dec fw
          (TenantUpdate (as_tenant_reconciler r) (tenant_view s) (tenant_view p) tst) ds0) /\
  forall request, In request (sent (invoke rt dec fw (RoleUpdate r s p st) ds0)) ->
    exists pd body,
      RoleResource.providerData r = Some pd /\
      json_Marshal rt
        (JObject [("tenant", JString (ValueString (RoleResourceModel.Name (raw s))));
                  ("new_tenant", JString (ValueString (RoleResourceModel.Name (raw p))))])
        = Ok body /\
      req_Method request = "PATCH" /\
      req_URL request = ProviderData.endpoint pd ++ "/tenants" /\
      req_Body request = Some body.
Proof.
  split.
  - cbv [as_tenant_reconciler tenant_view]. unfold_ops.
    cbn [raw get_diags TenantResource.providerData TenantResource.name
         TenantResourceModel.Name TenantResourceModel.ID].
    tidy. repeat (branch; tidy); congruence.
  - intros request. paths; cbn [In]; intros Hin; try contradiction; destruct Hin as [<-|[]].
    all: do 2 eexists.
    all: cbv [updateRequest.to_json updateRequest.Name updateRequest.NewName] in *.
    all: repeat split; eauto.
Qed.

(** ** C3 *)

(** C3 (what the code does): the request of a role delete is addressed by
    the reconciler's [name], which is empty on every reconciler the
    framework can hold; its URL is the endpoint followed by [/tenants/]
    whatever the role's tenant and name are. *)
Theorem role_delete_ignores_the_role rt dec fw r s st ds0 request :
  Reachable r ->
  In request (sent (invoke rt dec fw (RoleDelete r s st) ds0)) ->
  exists pd,
    RoleResource.providerData r = Some pd /\
    req_Method request = "DELETE" /\
    req_URL request = ProviderData.endpoint pd ++ "/tenants/".
Proof.
  intros Hr. apply Reachable_name in Hr. revert Hr.
  paths; cbn [In]; intros Hn Hin; try contradiction; destruct Hin as [<-|[]].
  all: eexists; repeat split.
  all: cbn [SetBasicAuth req_URL]; rewrite Hn; now rewrite append_empty.
Qed.

Lemma role_delete_ignores_the_role_witness :
  let rt := Fake.runtime (Fake.always 200 "43") in
  let request :=
    {| req_Method := "DELETE"; req_URL := "https://auth.example/tenants/";
       req_Header := [("Authorization", "Basic admin:hunter2")]; req_Body := None |} in
  exists pd,
    RoleResource.providerData Fake.roles = Some pd /\
    req_Method request = "DELETE" /\
    req_URL request = ProviderData.endpoint pd ++ "/tenants/".
Proof.
  apply (@role_delete_ignores_the_role
           (Fake.runtime (Fake.always 200 "43")) Fake.decoder Fake.framework
           Fake.roles (Fake.clean Fake.auditor) (Some Fake.auditor) []).
  - apply (Reachable_Configure (Some (any_ProviderData Fake.provider)) [] Reachable_new).
  - left. reflexivity.
Defined.

(** ** C5 *)

(** C5 (what the code does): a tenant create whose plan has the name [n]
    sends one request, a POST of [/tenants] with the encoding of
    [{tenant: n}] as its body.  When the answer has status 200 and its
    body decodes, the descriptor stored has the decoded id and the name
    of the plan.  When the status is not 200 the stored descriptor is the
    one before the call, but no failure is returned: with a body that
    can be read the call returns normally and its diagnostics are those
    it had after reading the plan, none of them an error. *)
Theorem tenant_create_contract rt dec fw r p st ds0 pd cl n body :
  HasError (ds0 ++ get_diags p)%list = false ->
  TenantResource.providerData r = Some pd ->
  ProviderData.client pd = Some cl ->
  ValueString (TenantResourceModel.Name (raw p)) = n ->
  json_Marshal rt (JObject [("tenant", JString n)]) = Ok body ->
  url_Parse rt (ProviderData.endpoint pd ++ "/tenants") = None ->
  let request :=
    SetBasicAuth rt
      {| req_Method := "POST"; req_URL := ProviderData.endpoint pd ++ "/tenants";
         req_Header := []; req_Body := Some body |}
      (ProviderData.username pd) (ProviderData.password pd) in
  let out := invoke rt dec fw (TenantCreate r p st) ds0 in
  sent out = [request] /\
  (forall res b cr,
     client_Do rt request = Ok res -> res_StatusCode res = 200%Z ->
     res_Body res = Ok b -> Unmarshal_createResponse dec b = Ok cr ->
     after out =
     Some (D_Tenant {| TenantResourceModel.Name := TenantResourceModel.Name (raw p);
                       TenantResourceModel.ID := StringValue (createResponse.ID cr) |})) /\
  (forall res,
     client_Do rt request = Ok res -> res_StatusCode res <> 200%Z ->
     after out = before out /\
     forall b, res_Body res = Ok b ->
       diags out = Append ds0 (get_diags p) /\
       HasError (diags out) = false /\
       panicked out = false).
Proof.
  intros Hd Hpd Hcl Hn Hm Hu request out. subst request out n.
  assert (Hd' : HasError (Append ds0 (get_diags p)) = false)
    by now rewrite HasError_Append, <- HasError_app.
  unfold_ops; tidy.
  cbv [createRequest.to_json createRequest.Name].
  rewrite Hd', Hm, Hpd, Hu, Hcl. tidy.
  split; [|split].
  - repeat (branch; tidy); reflexivity.
  - intros res b cr Hdo Hs Hb Hc. rewrite Hdo, Hs. cbn. rewrite Hb, Hc. reflexivity.
  - intros res Hdo Hs. rewrite Hdo.
    destruct (Z.eqb_spec (res_StatusCode res) 200) as [E|_]; [contradiction|].
    cbn. split; [destruct (res_Body res); reflexivity|].
    intros b Hb. rewrite Hb. cbn. repeat split. exact Hd'.
Qed.

Lemma tenant_create_contract_witness :
  let rt := Fake.runtime (Fake.always 409 "tenant exists") in
  let request :=
    SetBasicAuth rt
      {| req_Method := "POST";
         req_URL := ProviderData.endpoint Fake.provider ++ "/tenants";
         req_Header := [];
         req_Body := Some (Fake.render (JObject [("tenant", JString "lidl")])) |}
      (ProviderData.username Fake.provider) (ProviderData.password Fake.provider) in
  let out :=
    invoke rt Fake.decoder Fake.framework
      (TenantCreate Fake.tenants (Fake.clean Fake.lidl) None) [] in
  sent out = [request] /\
  (forall res b cr,
     client_Do rt request = Ok res -> res_StatusCode res = 200%Z ->
     res_Body res = Ok b -> Unmarshal_createResponse Fake.decoder b = Ok cr ->
     after out =
     Some (D_Tenant {| TenantResourceModel.Name :=
                         TenantResourceModel.Name (raw (Fake.clean Fake.lidl));
                       TenantResourceModel.ID := StringValue (createResponse.ID cr) |})) /\
  (forall res,
     client_Do rt request = Ok res -> res_StatusCode res <> 200%Z ->
     after out = before out /\
     forall b, res_Body res = Ok b ->
       diags out = Append [] (get_diags (Fake.clean Fake.lidl)) /\
       HasError (diags out) = false /\
       panicked out = false).
Proof.
  apply (@tenant_create_contract
           (Fake.runtime (Fake.always 409 "tenant exists")) Fake.decoder Fake.framework
           Fake.tenants (Fake.clean Fake.lidl) None [] Fake.provider
           http_DefaultClient "lidl"); reflexivity.
Defined.

(** The failing input of C5 run: the remote rejects the create with 409,
    and the call returns normally, with no diagnostic at all and nothing
    stored. *)
Example rejected_create_reports_nothing :
  let out :=
    invoke (Fake.runtime (Fake.always 409 "tenant exists")) Fake.decoder Fake.framework
      (TenantCreate Fake.tenants (Fake.clean Fake.lidl) None) [] in
  diags out = [] /\ panicked out = false /\ after out = None.
Proof. repeat split. Qed.

(** ** C6 *)

(** C6 (what the code does): when a call has sent its request and the
    client has returned a response, the status decides.  With status 200
    the body is decoded with the success schema of the call: if it
    decodes, a storing call stores a descriptor with the decoded id and a
    delete adds no diagnostic; if it does not, the call records an error
    and stores nothing.  With any other status the decoder is not
    consulted (the call behaves the same under every decoder), nothing is
    stored and a body that can be read goes to the log at error level;
    but the call does not fail: it returns normally, and its diagnostics
    are those it had after reading its descriptors, none of them an
    error. *)
Theorem only_status_200_is_decoded rt dec fw c ds0 request res :
  sent (invoke rt dec fw c ds0) = [request] ->
  client_Do rt request = Ok res ->
  if (res_StatusCode res =? 200)%Z then
    forall body, res_Body res = Ok body ->
      match decoded_ID dec c body with
      | Some id =>
          if stores c
          then exists d, after (invoke rt dec fw c ds0) = Some d /\
                         Descriptor_ID d = StringValue id
          else diags (invoke rt dec fw c ds0) = Append ds0 (read_diags fw c)
      | None =>
          HasError (diags (invoke rt dec fw c ds0)) = true /\
          after (invoke rt dec fw c ds0) = before (invoke rt dec fw c ds0)
      end
  else
    (forall dec', invoke rt dec' fw c ds0 = invoke rt dec fw c ds0) /\
    after (invoke rt dec fw c ds0) = before (invoke rt dec fw c ds0) /\
    (forall body, res_Body res = Ok body ->
       (exists m, In {| level := LevelError; msg := m; fields := [("body", body)] |}
                     (logged (invoke rt dec fw c ds0))) /\
       diags (invoke rt dec fw c ds0) = Append ds0 (read_diags fw c) /\
       HasError (diags (invoke rt dec fw c ds0)) = false /\
       panicked (invoke rt dec fw c ds0) = false).
Proof.
  intros Hs Hdo.
  destruct c; unfold_ops; tidy; cbv [stores].
  all: repeat (branch; tidy); try discriminate Hs.
  all: apply singleton_inj in Hs; subst request.
  all: match goal with
       | H : client_Do _ ?r = _, H' : client_Do _ ?r = _ |- _ => rewrite H in H'
       end; try discriminate.
  all: match goal with H : Ok _ = Ok _ |- _ => apply Ok_inj in H; subst end.
  all: rewrite ?negb_true_iff, ?negb_false_iff in *.
  all: try congruence.
  all: try (split; [reflexivity | split; [reflexivity|]]).
  all: intros body Hb.
  all: match goal with
       | H : res_Body ?r = _, H' : res_Body ?r = _ |- _ => rewrite H in H'
       end; try discriminate.
  all: match goal with H : Ok _ = Ok _ |- _ => apply Ok_inj in H; subst end.
  all: cbv [decoded_ID].
  all: repeat match goal with H : ?x = _ |- context [?x] => rewrite H end.
  all: try (eexists; split; reflexivity).
  all: try reflexivity.
  all: try (split; [eexists; cbn [In]; eauto |];
            split; [now rewrite ?Append_app |];
            split; [first [assumption | reflexivity] | reflexivity]).
  all: split; [|reflexivity]; rewrite HasError_Append; cbn; apply orb_true_r.
Qed.

Lemma only_status_200_is_decoded_witness :
  let rt := Fake.runtime (Fake.always 500 "boom") in
  let c := TenantDelete Fake.tenants (Fake.clean Fake.lidl_known) (Some Fake.lidl_known) in
  (forall dec', invoke rt dec' Fake.framework c [] =
                invoke rt Fake.decoder Fake.framework c []) /\
  after (invoke rt Fake.decoder Fake.framework c []) =
  before (invoke rt Fake.decoder Fake.framework c []) /\
  (forall body, Ok "boom" = Ok body ->
     (exists m, In {| level := LevelError; msg := m; fields := [("body", body)] |}
                   (logged (invoke rt Fake.decoder Fake.framework c []))) /\
     diags (invoke rt Fake.decoder Fake.framework c []) =
     Append [] (read_diags Fake.framework c) /\
     HasError (diags (invoke rt Fake.decoder Fake.framework c [])) = false /\
     panicked (invoke rt Fake.decoder Fake.framework c []) = false).
Proof.
  apply (@only_status_200_is_decoded
           (Fake.runtime (Fake.always 500 "boom")) Fake.decoder Fake.framework
           (TenantDelete Fake.tenants (Fake.clean Fake.lidl_known) (Some Fake.lidl_known)) []
           {| req_Method := "DELETE";
              req_URL := "https://auth.example/tenants/";
              req_Header := [("Authorization", "Basic admin:hunter2")];
              req_Body := None |}
           {| res_StatusCode := 500; res_Body := Ok "boom" |});
    reflexivity.
Defined.

(** The failing input of C6 run: a tenant delete answered 500 and one
    answered 200 return alike, without diagnostic; only the log tells
    them apart. *)
Example rejected_delete_looks_like_success :
  let run status body :=
    invoke (Fake.runtime (Fake.always status body)) Fake.decoder Fake.framework
      (TenantDelete Fake.tenants (Fake.clean Fake.lidl_known) (Some Fake.lidl_known)) [] in
  diags (run 500%Z "boom") = diags (run 200%Z "7") /\
  diags (run 500%Z "boom") = [] /\
  after (run 500%Z "boom") = after (run 200%Z "7") /\
  panicked (run 500%Z "boom") = panicked (run 200%Z "7").
Proof. repeat split. Qed.

(** ** C7 *)

(** C7: a role whose plan has the scopes [s] is created and then read on
    a configured reconciler; both requests are answered with status 200
    and bodies that decode, the descriptors read without error, and the
    framework turns the list of [s] into a slice and back without
    change.  Then the create sends its POST and stores the plan with the
    new id, and the read of that stored descriptor sends its GET and
    stores the scopes [s], element for element in the same order,
    whatever scopes the response carries. *)
Theorem role_scopes_survive_create_then_read
    rt dec fw r p st ds0 s pd cl body res1 b1 cr gd st1 ds1 res2 b2 found :
  RoleResourceModel.Scopes (raw p) = ListValue (map StringValue s) ->
  fst (ListValueFrom fw (fst (ElementsAs fw (ListValue (map StringValue s))))) =
  ListValue (map StringValue s) ->
  RoleResource.providerData r = Some pd ->
  ProviderData.client pd = Some cl ->
  HasError ((ds0 ++ get_diags p) ++
            snd (ElementsAs fw (ListValue (map StringValue s))))%list = false ->
  json_Marshal rt
    (JObject [("name", JString (ValueString (RoleResourceModel.Name (raw p))));
              ("tenant", JString (ValueString (RoleResourceModel.Tenant (raw p))));
              ("scopes",
               slice_json (fst (ElementsAs fw (ListValue (map StringValue s)))))])
    = Ok body ->
  url_Parse rt (ProviderData.endpoint pd ++ "/roles") = None ->
  let create_request :=
    SetBasicAuth rt
      {| req_Method := "POST"; req_URL := ProviderData.endpoint pd ++ "/roles";
         req_Header := []; req_Body := Some body |}
      (ProviderData.username pd) (ProviderData.password pd) in
  client_Do rt create_request = Ok res1 ->
  res_StatusCode res1 = 200%Z ->
  res_Body res1 = Ok b1 ->
  Unmarshal_createRoleResponse dec b1 = Ok cr ->
  HasError ((ds1 ++ gd) ++
            snd (ElementsAs fw (ListValue (map StringValue s))))%list = false ->
  url_Parse rt
    (ProviderData.endpoint pd ++ "/tenants/" ++
     ValueString (RoleResourceModel.Tenant (raw p)) ++ "/roles/" ++
     ValueString (RoleResourceModel.Name (raw p))) = None ->
  let read_request :=
    SetBasicAuth rt
      {| req_Method := "GET";
         req_URL := ProviderData.endpoint pd ++ "/tenants/" ++
                    ValueString (RoleResourceModel.Tenant (raw p)) ++ "/roles/" ++
                    ValueString (RoleResourceModel.Name (raw p));
         req_Header := []; req_Body := None |}
      (ProviderData.username pd) (ProviderData.password pd) in
  client_Do rt read_request = Ok res2 ->
  res_StatusCode res2 = 200%Z ->
  res_Body res2 = Ok b2 ->
  Unmarshal_readRoleResponse dec b2 = Ok found ->
  let created :=
    {| RoleResourceModel.ID := StringValue (createRoleResponse.ID cr);
       RoleResourceModel.Name := RoleResourceModel.Name (raw p);
       RoleResourceModel.Tenant := RoleResourceModel.Tenant (raw p);
       RoleResourceModel.Scopes := ListValue (map StringValue s) |} in
  let create := invoke rt dec fw (RoleCreate r p st) ds0 in
  let read :=
    invoke rt dec fw (RoleRead r {| raw := created; get_diags := gd |} st1) ds1 in
  sent create = [create_request] /\
  after create = Some (D_Role created) /\
  sent read = [read_request] /\
  after read =
    Some (D_Role {| RoleResourceModel.ID := StringValue (readRoleResponse.ID found);
                    RoleResourceModel.Name := RoleResourceModel.Name (raw p);
                    RoleResourceModel.Tenant := RoleResourceModel.Tenant (raw p);
                    RoleResourceModel.Scopes := ListValue (map StringValue s) |}).
Proof.
  intros Hs Hfw Hpd Hcl Hd1 Hm Hu1 create_request Hdo1 H1 Hb1 Hc1
         Hd2 Hu2 read_request Hdo2 H2 Hb2 Hf created create read.
  subst create_request read_request created create read.
  destruct (ElementsAs fw (ListValue (map StringValue s))) as [sl d] eqn:E.
  cbn [fst snd] in *.
  destruct (ListValueFrom fw sl) as [back d'] eqn:E'. cbn [fst] in Hfw. subst back.
  rewrite !HasError_app in Hd1, Hd2.
  apply orb_false_iff in Hd1, Hd2.
  destruct Hd1 as [Hd1 Hd], Hd2 as [Hd2 _].
  apply orb_false_iff in Hd1, Hd2.
  destruct Hd1 as [Hds0 Hgp], Hd2 as [Hds1 Hgd].
  assert (Hc : HasError (Append (Append ds0 (get_diags p)) d) = false)
    by now rewrite !HasError_Append, Hds0, Hgp, Hd.
  assert (Hr : HasError (Append (Append ds1 gd) d) = false)
    by now rewrite !HasError_Append, Hds1, Hgd, Hd.
  unfold_ops; tidy.
  cbv [createRoleRequest.to_json createRoleRequest.Name createRoleRequest.Tenant
       createRoleRequest.Scopes].
  cbn [raw get_diags RoleResourceModel.Scopes RoleResourceModel.Name
       RoleResourceModel.Tenant].
  rewrite Hgp, Hgd. tidy.
  cbn [raw get_diags RoleResourceModel.Scopes RoleResourceModel.Name
       RoleResourceModel.Tenant].
  rewrite Hs, E. tidy.
  rewrite Hc, Hr, Hm, Hpd. tidy.
  rewrite Hu1, Hu2, Hcl. tidy.
  rewrite Hdo1, Hdo2, H1, H2. cbn [Z.eqb Pos.eqb negb]. tidy.
  rewrite Hb1, Hb2, Hc1, Hf, E'. tidy.
  cbv [RoleResourceModel.set_ID RoleResourceModel.set_Scopes].
  cbn [RoleResourceModel.Scopes RoleResourceModel.Name RoleResourceModel.Tenant
       RoleResourceModel.ID].
  rewrite Hs. repeat split.
Qed.

Lemma role_scopes_survive_create_then_read_witness :
  let rt := Fake.runtime (Fake.always 200 "42") in
  let created :=
    {| RoleResourceModel.ID := StringValue "42";
       RoleResourceModel.Name := StringValue "editor";
       RoleResourceModel.Tenant := StringValue "lidl";
       RoleResourceModel.Scopes := ListValue (map StringValue ["read"; "write"]) |} in
  let create :=
    invoke rt Fake.decoder Fake.framework
      (RoleCreate Fake.roles (Fake.clean Fake.editor) None) [] in
  let read :=
    invoke rt Fake.decoder Fake.framework
      (RoleRead Fake.roles {| raw := created; get_diags := [] |} (Some created)) [] in
  sent create =
    [{| req_Method := "POST"; req_URL := "https://auth.example/roles";
        req_Header := [("Authorization", "Basic admin:hunter2")];
        req_Body :=
          Some (Fake.render
                  (JObject [("name", JString "editor"); ("tenant", JString "lidl");
                            ("scopes", JArray [JString "read"; JString "write"])])) |}] /\
  after create = Some (D_Role created) /\
  sent read =
    [{| req_Method := "GET";
        req_URL := "https://auth.example/tenants/lidl/roles/editor";
        req_Header := [("Authorization", "Basic admin:hunter2")];
        req_Body := None |}] /\
  after read =
    Some (D_Role {| RoleResourceModel.ID := StringValue "42";
                    RoleResourceModel.Name := StringValue "editor";
                    RoleResourceModel.Tenant := StringValue "lidl";
                    RoleResourceModel.Scopes :=
                      ListValue (map StringValue ["read"; "write"]) |}).
Proof.
  apply (@role_scopes_survive_create_then_read
           (Fake.runtime (Fake.always 200 "42")) Fake.decoder Fake.framework
           Fake.roles (Fake.clean Fake.editor) None [] ["read"; "write"]
           Fake.provider http_DefaultClient
           (Fake.render
              (JObject [("name", JString "editor"); ("tenant", JString "lidl");
                        ("scopes", JArray [JString "read"; JString "write"])]))
           {| res_StatusCode := 200; res_Body := Ok "42" |} "42"
           {| createRoleResponse.ID := "42" |}
           [] (Some
                 {| RoleResourceModel.ID := StringValue "42";
                    RoleResourceModel.Name := StringValue "editor";
                    RoleResourceModel.Tenant := StringValue "lidl";
                    RoleResourceModel.Scopes :=
                      ListValue (map StringValue ["read"; "write"]) |}) []
           {| res_StatusCode := 200; res_Body := Ok "42" |} "42"
           {| readRoleResponse.ID := "42"; readRoleResponse.Name := "remote";
              readRoleResponse.Tenant := "elsewhere";
              readRoleResponse.Scopes := Some ["admin"] |});
    reflexivity.
Defined.

(** ** C8 *)

(** C8: every request a call hands to the client has an [Authorization]
    header, the Basic scheme followed by the encoding of the user name
    and password its receiver was configured with. *)
Theorem every_request_has_basic_auth rt dec fw c ds0 request :
  In request (sent (invoke rt dec fw c ds0)) ->
  exists u p,
    credentials c = Some (u, p) /\
    Header_Get "Authorization" (req_Header request) =
    Some ("Basic " ++ base64_EncodeToString rt (u ++ ":" ++ p)).
Proof.
  destruct c; paths; cbn [In]; intros Hin; try contradiction.
  all: destruct Hin as [<-|[]].
  all: cbv [credentials]; rewrite ?Heqo; cbn [option_map].
  all: do 2 eexists; split; [reflexivity | apply SetBasicAuth_Authorization].
Qed.

Lemma every_request_has_basic_auth_witness :
  let rt := Fake.runtime (Fake.always 200 "7") in
  let request :=
    {| req_Method := "GET"; req_URL := "https://auth.example/tenants/lidl";
       req_Header := [("Authorization", "Basic admin:hunter2")]; req_Body := None |} in
  exists u p,
    credentials (TenantDataRead Fake.source
                   (Fake.clean {| TenantDataSourceModel.ID := StringNull;
                                  TenantDataSourceModel.Name := StringValue "lidl" |})
                   None) = Some (u, p) /\
    Header_Get "Authorization" (req_Header request) =
    Some ("Basic " ++ base64_EncodeToString rt (u ++ ":" ++ p)).
Proof.
  apply (@every_request_has_basic_auth
           (Fake.runtime (Fake.always 200 "7")) Fake.decoder Fake.framework
           (TenantDataRead Fake.source
              (Fake.clean {| TenantDataSourceModel.ID := StringNull;
                             TenantDataSourceModel.Name := StringValue "lidl" |})
              None) []).
  left. reflexivity.
Defined.

(** ** C9 *)

(** C9: a role read that gets status 200 and a body that decodes stores
    the id of the response and the name, tenant and scopes of the prior
    state, whatever name, tenant and scopes the response carries,
    provided the framework turns the prior scopes into a slice and back
    without change. *)
Theorem role_read_takes_only_the_id rt dec fw r s st ds0 request res body newRole :
  sent (invoke rt dec fw (RoleRead r s st) ds0) = [request] ->
  client_Do rt request = Ok res ->
  res_StatusCode res = 200%Z ->
  res_Body res = Ok body ->
  Unmarshal_readRoleResponse dec body = Ok newRole ->
  fst (ListValueFrom fw (fst (ElementsAs fw (RoleResourceModel.Scopes (raw s))))) =
  RoleResourceModel.Scopes (raw s) ->
  after (invoke rt dec fw (RoleRead r s st) ds0) =
  Some (D_Role {| RoleResourceModel.ID := StringValue (readRoleResponse.ID newRole);
                  RoleResourceModel.Name := RoleResourceModel.Name (raw s);
                  RoleResourceModel.Tenant := RoleResourceModel.Tenant (raw s);
                  RoleResourceModel.Scopes := RoleResourceModel.Scopes (raw s) |}).
Proof.
  intros Hs Hdo H200 Hb Hu Hfw.
  unfold_ops; tidy. repeat (branch; tidy); try discriminate Hs.
  all: apply singleton_inj in Hs; subst request.
  all: match goal with
       | H : client_Do _ ?r = _, H' : client_Do _ ?r = _ |- _ => rewrite H in H'
       end; try discriminate.
  all: match goal with H : Ok _ = Ok _ |- _ => apply Ok_inj in H; subst end.
  all: rewrite H200 in *; cbn [Z.eqb Pos.eqb negb] in *; try discriminate.
  all: match goal with
       | H : res_Body ?r = _, H' : res_Body ?r = _ |- _ => rewrite H in H'
       end; try discriminate.
  all: match goal with H : Ok _ = Ok _ |- _ => apply Ok_inj in H; subst end.
  all: match goal with
       | H : Unmarshal_readRoleResponse _ ?b = _,
         H' : Unmarshal_readRoleResponse _ ?b = _ |- _ => rewrite H in H'
       end; try discriminate.
  all: match goal with H : Ok _ = Ok _ |- _ => apply Ok_inj in H; subst end.
  reflexivity.
Qed.

Lemma role_read_takes_only_the_id_witness :
  after (invoke (Fake.runtime (Fake.always 200 "42")) Fake.decoder Fake.framework
           (RoleRead Fake.roles (Fake.clean Fake.editor) None) []) =
  Some (D_Role {| RoleResourceModel.ID := StringValue "42";
                  RoleResourceModel.Name := StringValue "editor";
                  RoleResourceModel.Tenant := StringValue "lidl";
                  RoleResourceModel.Scopes :=
                    ListValue [StringValue "read"; StringValue "write"] |}).
Proof.
  apply (@role_read_takes_only_the_id
           (Fake.runtime (Fake.always 200 "42")) Fake.decoder Fake.framework
           Fake.roles (Fake.clean Fake.editor) None []
           {| req_Method := "GET";
              req_URL := "https://auth.example/tenants/lidl/roles/editor";
              req_Header := [("Authorization", "Basic admin:hunter2")];
              req_Body := None |}
           {| res_StatusCode := 200; res_Body := Ok "42" |} "42"
           {| readRoleResponse.ID := "42"; readRoleResponse.Name := "remote";
              readRoleResponse.Tenant := "elsewhere";
              readRoleResponse.Scopes := Some ["admin"] |});
    reflexivity.
Defined.

(** ** C10 *)

(** C10: the provider registers one resource constructor, the tenant
    resource's, and one data source constructor, the tenant data
    source's; no registered constructor builds a role resource, and the
    role resource reports the type name of the tenant resource, the
    provider's type name followed by [_tenant]. *)
Theorem provider_registers_tenant_only (p : AuthProxy.t) :
  map (fun new => new tt) (AuthProxy.Resources p) = [Resource_Tenant NewTenantResource] /\
  map (fun new => new tt) (AuthProxy.DataSources p) =
    [DataSource_Tenant NewTenantDataSource] /\
  (forall new r, In new (AuthProxy.Resources p) -> new tt <> Resource_Role r) /\
  (forall (r : RoleResource.t) (t : TenantResource.t) (typeName : string),
     RoleResource.Metadata r typeName = typeName ++ "_tenant" /\
     Resource_Metadata (Resource_Role r) typeName =
     Resource_Metadata (Resource_Tenant t) typeName).
Proof.
  repeat split.
  intros new r [<-|[]]. discriminate.
Qed.

(** ** The other outcomes *)

(** A call on a configured receiver returns, unless it is a role create
    or read whose descriptor could not be read. *)
Lemma configured_calls_return rt dec fw c ds0 :
  configured c = true -> nil_data c = false ->
  panicked (invoke rt dec fw c ds0) = false.
Proof.
  destruct c; cbv [configured nil_data]; paths; congruence.
Qed.

(** X1: every way a call on a configured receiver can fail other than a
    rejected status with a readable body (nothing dispatched, transport
    error, unreadable body, body that does not decode) leaves an error
    among the diagnostics. *)
Theorem other_failures_are_recorded rt dec fw c ds0 :
  configured c = true ->
  match exchange rt dec fw c ds0 with
  | Completed | RemoteRejected _ (Ok _) => True
  | _ => HasError (diags (invoke rt dec fw c ds0)) = true
  end.
Proof.
  destruct c; cbv [configured]; paths; replay; intros; try congruence; try exact I.
  all: rewrite ?HasError_Append in *.
  all: first [ assumption
             | cbn; apply orb_true_r
             | match goal with H : HasError ?x = true |- _ => rewrite H end;
               rewrite ?orb_true_r; reflexivity ].
Qed.

Lemma other_failures_are_recorded_witness :
  match exchange (Fake.runtime Fake.offline) Fake.decoder Fake.framework
          (RoleCreate Fake.roles (Fake.clean Fake.editor) None) [] with
  | Completed | RemoteRejected _ (Ok _) => True
  | _ => HasError (diags (invoke (Fake.runtime Fake.offline) Fake.decoder Fake.framework
                            (RoleCreate Fake.roles (Fake.clean Fake.editor) None) []))
         = true
  end.
Proof.
  apply (@other_failures_are_recorded
           (Fake.runtime Fake.offline) Fake.decoder Fake.framework
           (RoleCreate Fake.roles (Fake.clean Fake.editor) None) []).
  reflexivity.
Defined.

(** The credentials of a reconciler configured from what the provider's
    [Configure] hands out are those of the provider's configuration. *)
Lemma provider_credentials_reach_the_reconcilers p cfg resp r req st :
  HasError (AuthProxy.Diags resp ++ get_diags cfg)%list = false ->
  credentials
    (TenantCreate
       (fst (TenantResource.Configure r
               (AuthProxy.ResourceData (AuthProxy.Configure p cfg resp)) []))
       req st) =
  Some (ValueString (Model.Username (raw cfg)), ValueString (Model.Password (raw cfg))).
Proof.
  intros H. cbv [AuthProxy.Configure Get].
  rewrite HasError_Append, <- HasError_app, H. reflexivity.
Qed.

(** ** Runs *)

Example tenant_create_run :
  invoke (Fake.runtime (Fake.always 200 "7")) Fake.decoder Fake.framework
         (TenantCreate Fake.tenants (Fake.clean Fake.lidl) None) [] =
  {| before := None;
     after := Some (D_Tenant Fake.lidl_known);
     diags := [];
     logged :=
       [{| level := LevelDebug; msg := "Setting basic auth"; fields := [] |};
        {| level := LevelDebug; msg := "Making request"; fields := [] |};
        {| level := LevelDebug; msg := "created a tenant resource, response was";
           fields := [("id", "7")] |}];
     sent :=
       [{| req_Method := "POST"; req_URL := "https://auth.example/tenants";
           req_Header := [("Authorization", "Basic admin:hunter2")];
           req_Body := Some (Fake.render (JObject [("tenant", JString "lidl")])) |}];
     panicked := false |}.
Proof. reflexivity. Qed.

Example rejected_create_run :
  invoke (Fake.runtime (Fake.always 409 "tenant exists")) Fake.decoder Fake.framework
         (TenantCreate Fake.tenants (Fake.clean Fake.lidl) None) [] =
  {| before := None;
     after := None;
     diags := [];
     logged :=
       [{| level := LevelDebug; msg := "Setting basic auth"; fields := [] |};
        {| level := LevelDebug; msg := "Making request"; fields := [] |};
        {| level := LevelError; msg := "could not create tenant";
           fields := [("body", "tenant exists")] |}];
     sent :=
       [{| req_Method := "POST"; req_URL := "https://auth.example/tenants";
           req_Header := [("Authorization", "Basic admin:hunter2")];
           req_Body := Some (Fake.render (JObject [("tenant", JString "lidl")])) |}];
     panicked := false |}.
Proof. reflexivity. Qed.

Example every_verdict_occurs :
  let c := TenantRead Fake.tenants (Fake.clean Fake.lidl_known) (Some Fake.lidl_known) in
  let ask rt := exchange rt Fake.decoder Fake.framework c [] in
  ask (Fake.no_url (Fake.always 200 "7")) = NotDispatched /\
  ask (Fake.runtime Fake.offline) = TransportError /\
  ask (Fake.runtime (Fake.always 404 "no such tenant")) =
    RemoteRejected 404 (Ok "no such tenant") /\
  ask (Fake.runtime (Fake.truncated 502)) = RemoteRejected 502 (Err "unexpected EOF") /\
  ask (Fake.runtime (Fake.truncated 200)) = BodyReadError /\
  ask (Fake.runtime (Fake.always 200 EmptyString)) = DecodeError /\
  ask (Fake.runtime (Fake.always 200 "7")) = Completed.
Proof. repeat split. Qed.

Example role_update_run :
  sent (invoke (Fake.runtime (Fake.always 200 "42")) Fake.decoder Fake.framework
          (RoleUpdate Fake.roles (Fake.clean Fake.editor_known)
             (Fake.clean (RoleResourceModel.set_Name Fake.editor_known
                            (StringValue "publisher")))
             (Some Fake.editor_known)) []) =
  [{| req_Method := "PATCH"; req_URL := "https://auth.example/tenants";
      req_Header := [("Authorization", "Basic admin:hunter2")];
      req_Body :=
        Some (Fake.render (JObject [("tenant", JString "editor");
                                    ("new_tenant", JString "publisher")])) |}].
Proof. reflexivity. Qed.

Example role_delete_run :
  let url c :=
    map req_URL
        (sent (invoke (Fake.runtime (Fake.always 200 "42")) Fake.decoder Fake.framework
                 c [])) in
  url (RoleDelete Fake.roles (Fake.clean Fake.editor_known) (Some Fake.editor_known)) =
    ["https://auth.example/tenants/"] /\
  url (RoleDelete Fake.roles (Fake.clean Fake.auditor) (Some Fake.auditor)) =
    ["https://auth.example/tenants/"].
Proof. split; reflexivity. Qed.

Example unconfigured_create_panics :
  panicked (invoke (Fake.runtime (Fake.always 200 "7")) Fake.decoder Fake.framework
              (TenantCreate NewTenantResource (Fake.clean Fake.lidl) None) []) = true.
Proof. reflexivity. Qed.

(** * More properties of the calls *)

(** ** No retry, no lost diagnostic *)

(** X2: whatever the outcome, a call hands at most one request to the
    client: a failed exchange is not tried again. *)
Theorem no_call_retries rt dec fw c ds0 :
  (length (sent (invoke rt dec fw c ds0)) <= 1)%nat.
Proof.
  destruct (at_most_one_request rt dec fw c ds0) as [E|[request E]];
    rewrite E; cbn; lia.
Qed.

Lemma holds_nil b : holds b [].
Proof. intros d []. Qed.

Lemma holds_app b x y : holds b x -> holds b y -> holds b (x ++ y)%list.
Proof. intros Hx Hy d H. apply in_app_or in H. destruct H; auto. Qed.

Lemma holds_Append_new a x : holds (Append a x) x.
Proof. intros d H. now apply In_Append. Qed.

Lemma holds_Append_r b y x : holds b x -> holds (Append b y) x.
Proof.
  intros H d Hd. eapply extends_In; [apply extends_Append | now apply H].
Qed.

Lemma Contains_false_not_In (ds : Diagnostics) (d : Diagnostic) :
  Contains ds d = false -> ~ In d ds.
Proof.
  intros H Hin. unfold Contains in H.
  assert (existsb (fun held => Diagnostic_Equal held d) ds = true) as E; [|congruence].
  apply existsb_exists. exists d. split; [exact Hin|].
  unfold Diagnostic_Equal. destruct (severity d); now rewrite !String.eqb_refl.
Qed.

Lemma NoDup_Append (ds new : Diagnostics) : NoDup ds -> NoDup (Append ds new).
Proof.
  revert ds. induction new as [|d rest IH]; intros ds H; cbn [Append]; [exact H|].
  apply IH. destruct (Contains ds d) eqn:E; [exact H|].
  apply Contains_false_not_In in E.
  apply NoDup_app; [exact H | repeat constructor; intros [] | ].
  intros x Hx [<-|[]]. contradiction.
Qed.

(** X3: a call never drops or reorders a diagnostic: those the response
    held come back in front, in their order; every diagnostic returned
    by reading the descriptors is among those that come back; and, as
    appending skips a diagnostic equal to one already held, when the
    response held none twice none comes back twice. *)
Theorem earlier_diagnostics_are_kept rt dec fw c ds0 :
  (exists added, diags (invoke rt dec fw c ds0) = (ds0 ++ added)%list) /\
  (forall d, In d (read_diags fw c) -> In d (diags (invoke rt dec fw c ds0))) /\
  (NoDup ds0 -> NoDup (diags (invoke rt dec fw c ds0))).
Proof.
  change (extends ds0 (diags (invoke rt dec fw c ds0)) /\
          holds (diags (invoke rt dec fw c ds0)) (read_diags fw c) /\
          (NoDup ds0 -> NoDup (diags (invoke rt dec fw c ds0)))).
  destruct c; paths.
  all: split; [repeat apply extends_Append_r; apply extends_refl|].
  all: split; [|intros H; repeat apply NoDup_Append; exact H].
  all: repeat first [ apply holds_nil | apply holds_app
                    | apply holds_Append_new | apply holds_Append_r ].
Qed.

(** X4: when the response already holds an error, or reading the
    descriptors returns one, nothing is sent, nothing is logged and
    nothing is stored, and the diagnostics are those held with those of
    the reading appended.  The tenant methods, the data source read and
    the role update and delete return there; the role create and read
    return too when the error is not from [Get], and panic when it is,
    as they read the scopes of the descriptor [Get] did not assign. *)
Theorem read_error_stops_the_call rt dec fw c ds0 :
  HasError (ds0 ++ read_diags fw c)%list = true ->
  sent (invoke rt dec fw c ds0) = [] /\
  logged (invoke rt dec fw c ds0) = [] /\
  after (invoke rt dec fw c ds0) = before (invoke rt dec fw c ds0) /\
  diags (invoke rt dec fw c ds0) = Append ds0 (read_diags fw c) /\
  panicked (invoke rt dec fw c ds0) = nil_data c.
Proof.
  destruct c; cbv [nil_data]; paths.
  all: rewrite ?app_nil_r in *.
  all: rewrite ?HasError_app, ?HasError_Append, ?orb_assoc in *.
  all: intros; try congruence.
  all: rewrite ?Append_app; repeat split; try congruence.
Qed.

Lemma read_error_stops_the_call_witness :
  let rt := Fake.runtime (Fake.always 200 "42") in
  let c := RoleRead Fake.roles
             {| raw := Fake.editor_known; get_diags := [Fake.unhandled] |}
             (Some Fake.editor_known) in
  sent (invoke rt Fake.decoder Fake.framework c []) = [] /\
  logged (invoke rt Fake.decoder Fake.framework c []) = [] /\
  after (invoke rt Fake.decoder Fake.framework c []) =
  before (invoke rt Fake.decoder Fake.framework c []) /\
  diags (invoke rt Fake.decoder Fake.framework c []) =
  Append [] (read_diags Fake.framework c) /\
  panicked (invoke rt Fake.decoder Fake.framework c []) = nil_data c.
Proof.
  apply (@read_error_stops_the_call
           (Fake.runtime (Fake.always 200 "42")) Fake.decoder Fake.framework
           (RoleRead Fake.roles
              {| raw := Fake.editor_known; get_diags := [Fake.unhandled] |}
              (Some Fake.editor_known)) []).
  reflexivity.
Defined.

(** The two inputs on which the role read differs: an error from [Get]
    leaves [data] nil and the method panics; an error from [ElementsAs]
    makes it return. *)
Example role_read_on_read_errors :
  let run s :=
    panicked (invoke (Fake.runtime (Fake.always 200 "42")) Fake.decoder Fake.framework
                (RoleRead Fake.roles s (Some Fake.editor_known)) []) in
  run {| raw := Fake.editor_known; get_diags := [Fake.unhandled] |} = true /\
  run (Fake.clean (RoleResourceModel.set_Scopes Fake.editor_known ListUnknown)) = false.
Proof. split; reflexivity. Qed.

(** Appending the same diagnostic again leaves one copy. *)
Example repeated_read_error_is_held_once :
  diags (invoke (Fake.runtime (Fake.always 200 "7")) Fake.decoder Fake.framework
           (TenantUpdate Fake.tenants
              {| raw := Fake.lidl_known; get_diags := [Fake.unhandled] |}
              {| raw := Fake.lidl_known; get_diags := [Fake.unhandled] |}
              (Some Fake.lidl_known)) []) = [Fake.unhandled].
Proof. reflexivity. Qed.

(** ** Provider data *)

(** X5: a resource method called on a reconciler that holds no provider
    data dereferences a nil pointer as soon as it needs the endpoint:
    with descriptors that read without error and a body that encodes, the
    call panics before anything is sent or stored. *)
Theorem resource_without_provider_data_panics rt dec fw c ds0 :
  credentials c = None ->
  HasError (ds0 ++ read_diags fw c)%list = false ->
  (forall j, is_ok (json_Marshal rt j) = true) ->
  panicked (invoke rt dec fw c ds0) = true /\
  sent (invoke rt dec fw c ds0) = [] /\
  after (invoke rt dec fw c ds0) = before (invoke rt dec fw c ds0).
Proof.
  intros Hc Hd Hm.
  destruct c; cbv [credentials] in Hc; paths.
  all: rewrite ?app_nil_r in *.
  all: rewrite ?HasError_app, ?HasError_Append, ?orb_assoc in *.
  all: try discriminate; try congruence.
  all: try (rewrite ?orb_true_r in *; discriminate).
  all: try (repeat split; fail).
  all: match goal with
       | H : json_Marshal _ ?j = Err _ |- _ =>
           specialize (Hm j); rewrite H in Hm; discriminate
       end.
Qed.

Lemma resource_without_provider_data_panics_witness :
  let rt := Fake.runtime (Fake.always 200 "7") in
  let c := TenantUpdate NewTenantResource (Fake.clean Fake.lidl_known)
             (Fake.clean Fake.lidl_known) (Some Fake.lidl_known) in
  panicked (invoke rt Fake.decoder Fake.framework c []) = true /\
  sent (invoke rt Fake.decoder Fake.framework c []) = [] /\
  after (invoke rt Fake.decoder Fake.framework c []) =
  before (invoke rt Fake.decoder Fake.framework c []).
Proof.
  apply (@resource_without_provider_data_panics
           (Fake.runtime (Fake.always 200 "7")) Fake.decoder Fake.framework
           (TenantUpdate NewTenantResource (Fake.clean Fake.lidl_known)
              (Fake.clean Fake.lidl_known) (Some Fake.lidl_known)) []);
    reflexivity.
Defined.

(** X6: a data source configured with what the provider's [Configure]
    hands out reads without panic, and the request it sends is a GET
    without body of the configured endpoint followed by [/tenants/] and
    the name asked for, authenticated with the configured user name and
    password. *)
Theorem provider_configures_the_data_source rt dec fw p cfg resp d0 ds q st ds0 request :
  HasError (AuthProxy.Diags resp ++ get_diags cfg)%list = false ->
  let d :=
    fst (TenantDataSource.Configure d0
           (AuthProxy.DataSourceData (AuthProxy.Configure p cfg resp)) ds) in
  let out := invoke rt dec fw (TenantDataRead d q st) ds0 in
  panicked out = false /\
  (In request (sent out) ->
   req_Method request = "GET" /\
   req_URL request =
     ValueString (Model.Endpoint (raw cfg)) ++ "/tenants/" ++
     ValueString (TenantDataSourceModel.Name (raw q)) /\
   req_Body request = None /\
   Header_Get "Authorization" (req_Header request) =
     Some ("Basic " ++
           base64_EncodeToString rt
             (ValueString (Model.Username (raw cfg)) ++ ":" ++
              ValueString (Model.Password (raw cfg))))).
Proof.
  intros H d out. subst d out.
  cbv [AuthProxy.Configure Get]. rewrite HasError_Append, <- HasError_app, H.
  cbn [AuthProxy.DataSourceData TenantDataSource.Configure fst].
  unfold_ops.
  cbn [TenantDataSource.client TenantDataSource.endpoint TenantDataSource.username
       TenantDataSource.password ProviderData.client ProviderData.endpoint
       ProviderData.username ProviderData.password].
  tidy. repeat (branch; tidy).
  all: split; [reflexivity|]; cbn [In]; intros Hin; try contradiction.
  all: destruct Hin as [<-|[]].
  all: repeat split; apply SetBasicAuth_Authorization.
Qed.

Lemma provider_configures_the_data_source_witness :
  let rt := Fake.runtime (Fake.always 200 "7") in
  let cfg :=
    Fake.clean {| Model.Endpoint := StringValue "https://auth.example";
                  Model.Password := StringValue "hunter2";
                  Model.Username := StringValue "admin" |} in
  let q :=
    Fake.clean {| TenantDataSourceModel.ID := StringNull;
                  TenantDataSourceModel.Name := StringValue "lidl" |} in
  let request :=
    {| req_Method := "GET"; req_URL := "https://auth.example/tenants/lidl";
       req_Header := [("Authorization", "Basic admin:hunter2")]; req_Body := None |} in
  let d :=
    fst (TenantDataSource.Configure NewTenantDataSource
           (AuthProxy.DataSourceData
              (AuthProxy.Configure (New "dev" tt) cfg
                 {| AuthProxy.DataSourceData := None; AuthProxy.ResourceData := None;
                    AuthProxy.Diags := [] |})) []) in
  let out := invoke rt Fake.decoder Fake.framework (TenantDataRead d q None) [] in
  panicked out = false /\
  (In request (sent out) ->
   req_Method request = "GET" /\
   req_URL request =
     ValueString (Model.Endpoint (raw cfg)) ++ "/tenants/" ++
     ValueString (TenantDataSourceModel.Name (raw q)) /\
   req_Body request = None /\
   Header_Get "Authorization" (req_Header request) =
     Some ("Basic " ++
           base64_EncodeToString rt
             (ValueString (Model.Username (raw cfg)) ++ ":" ++
              ValueString (Model.Password (raw cfg))))).
Proof.
  apply (@provider_configures_the_data_source
           (Fake.runtime (Fake.always 200 "7")) Fake.decoder Fake.framework
           (New "dev" tt)).
  reflexivity.
Defined.

(** ** What each method sends and stores *)

(** Runs a method on a configured receiver up to its exchange. *)
Ltac exchange_of Hd Hpd Hcl Hu :=
  unfold_ops; tidy; rewrite ?Hd, ?Hpd; tidy; rewrite ?Hu, ?Hcl; tidy.

(** X7: a tenant read sends one request, a GET without body of
    [/tenants/] followed by the name of the prior state.  When the answer
    has status 200 and decodes, the descriptor stored has the id of the
    response and the name of the prior state, whatever name the response
    carries. *)
Theorem tenant_read_keeps_the_name rt dec fw r s st ds0 pd cl :
  HasError (ds0 ++ get_diags s)%list = false ->
  TenantResource.providerData r = Some pd ->
  ProviderData.client pd = Some cl ->
  url_Parse rt (ProviderData.endpoint pd ++ "/tenants/" ++
                ValueString (TenantResourceModel.Name (raw s))) = None ->
  let request :=
    SetBasicAuth rt
      {| req_Method := "GET";
         req_URL := ProviderData.endpoint pd ++ "/tenants/" ++
                    ValueString (TenantResourceModel.Name (raw s));
         req_Header := []; req_Body := None |}
      (ProviderData.username pd) (ProviderData.password pd) in
  let out := invoke rt dec fw (TenantRead r s st) ds0 in
  sent out = [request] /\
  (forall res b found,
     client_Do rt request = Ok res -> res_StatusCode res = 200%Z ->
     res_Body res = Ok b -> Unmarshal_readResponse dec b = Ok found ->
     after out =
     Some (D_Tenant {| TenantResourceModel.Name := TenantResourceModel.Name (raw s);
                       TenantResourceModel.ID := StringValue (readResponse.ID found) |})).
Proof.
  intros Hd Hpd Hcl Hu request out. subst request out.
  rewrite HasError_app, <- HasError_Append in Hd.
  exchange_of Hd Hpd Hcl Hu.
  split.
  - repeat (branch; tidy); reflexivity.
  - intros res b found Hdo Hs Hb Hf. rewrite Hdo, Hs. cbn. rewrite Hb, Hf. reflexivity.
Qed.

Lemma tenant_read_keeps_the_name_witness :
  let rt := Fake.runtime (Fake.always 200 "8") in
  let request :=
    SetBasicAuth rt
      {| req_Method := "GET";
         req_URL := ProviderData.endpoint Fake.provider ++ "/tenants/" ++
                    ValueString (TenantResourceModel.Name (raw (Fake.clean Fake.lidl_known)));
         req_Header := []; req_Body := None |}
      (ProviderData.username Fake.provider) (ProviderData.password Fake.provider) in
  let out :=
    invoke rt Fake.decoder Fake.framework
      (TenantRead Fake.tenants (Fake.clean Fake.lidl_known) (Some Fake.lidl_known)) [] in
  sent out = [request] /\
  (forall res b found,
     client_Do rt request = Ok res -> res_StatusCode res = 200%Z ->
     res_Body res = Ok b -> Unmarshal_readResponse Fake.decoder b = Ok found ->
     after out =
     Some (D_Tenant {| TenantResourceModel.Name :=
                         TenantResourceModel.Name (raw (Fake.clean Fake.lidl_known));
                       TenantResourceModel.ID := StringValue (readResponse.ID found) |})).
Proof.
  apply (@tenant_read_keeps_the_name
           (Fake.runtime (Fake.always 200 "8")) Fake.decoder Fake.framework
           Fake.tenants (Fake.clean Fake.lidl_known) (Some Fake.lidl_known) []
           Fake.provider http_DefaultClient); reflexivity.
Defined.

(** X8: a tenant update sends one request, a PATCH of [/tenants] whose
    body encodes the name of the prior state as [tenant] and the name of
    the plan as [new_tenant].  When the answer has status 200 and
    decodes, the descriptor stored is the plan with the id of the
    response; the id of the prior state is not carried over. *)
Theorem tenant_update_contract rt dec fw r s p st ds0 pd cl body :
  HasError ((ds0 ++ get_diags s) ++ get_diags p)%list = false ->
  TenantResource.providerData r = Some pd ->
  ProviderData.client pd = Some cl ->
  json_Marshal rt
    (JObject [("tenant", JString (ValueString (TenantResourceModel.Name (raw s))));
              ("new_tenant", JString (ValueString (TenantResourceModel.Name (raw p))))])
    = Ok body ->
  url_Parse rt (ProviderData.endpoint pd ++ "/tenants") = None ->
  let request :=
    SetBasicAuth rt
      {| req_Method := "PATCH"; req_URL := ProviderData.endpoint pd ++ "/tenants";
         req_Header := []; req_Body := Some body |}
      (ProviderData.username pd) (ProviderData.password pd) in
  let out := invoke rt dec fw (TenantUpdate r s p st) ds0 in
  sent out = [request] /\
  (forall res b cr,
     client_Do rt request = Ok res -> res_StatusCode res = 200%Z ->
     res_Body res = Ok b -> Unmarshal_updateResponse dec b = Ok cr ->
     after out =
     Some (D_Tenant {| TenantResourceModel.Name := TenantResourceModel.Name (raw p);
                       TenantResourceModel.ID := StringValue (updateResponse.ID cr) |})).
Proof.
  intros Hd Hpd Hcl Hm Hu request out. subst request out.
  rewrite <- HasError_Append_twice in Hd.
  unfold_ops; tidy.
  cbv [updateRequest.to_json updateRequest.Name updateRequest.NewName].
  rewrite Hd, Hm, Hpd, Hu, Hcl. tidy.
  split.
  - repeat (branch; tidy); reflexivity.
  - intros res b cr Hdo Hs Hb Hc. rewrite Hdo, Hs. cbn. rewrite Hb, Hc. reflexivity.
Qed.

Lemma tenant_update_contract_witness :
  let rt := Fake.runtime (Fake.always 200 "7") in
  let s := Fake.clean Fake.lidl_known in
  let p := Fake.clean (TenantResourceModel.set_Name Fake.lidl_known (StringValue "aldi")) in
  let request :=
    SetBasicAuth rt
      {| req_Method := "PATCH";
         req_URL := ProviderData.endpoint Fake.provider ++ "/tenants";
         req_Header := [];
         req_Body := Some (Fake.render (JObject [("tenant", JString "lidl");
                                                 ("new_tenant", JString "aldi")])) |}
      (ProviderData.username Fake.provider) (ProviderData.password Fake.provider) in
  let out :=
    invoke rt Fake.decoder Fake.framework
      (TenantUpdate Fake.tenants s p (Some Fake.lidl_known)) [] in
  sent out = [request] /\
  (forall res b cr,
     client_Do rt request = Ok res -> res_StatusCode res = 200%Z ->
     res_Body res = Ok b -> Unmarshal_updateResponse Fake.decoder b = Ok cr ->
     after out =
     Some (D_Tenant {| TenantResourceModel.Name := TenantResourceModel.Name (raw p);
                       TenantResourceModel.ID := StringValue (updateResponse.ID cr) |})).
Proof.
  apply (@tenant_update_contract
           (Fake.runtime (Fake.always 200 "7")) Fake.decoder Fake.framework
           Fake.tenants (Fake.clean Fake.lidl_known)
           (Fake.clean (TenantResourceModel.set_Name Fake.lidl_known (StringValue "aldi")))
           (Some Fake.lidl_known) [] Fake.provider http_DefaultClient); reflexivity.
Defined.

(** X9: a delete stores nothing, whatever its outcome: the id and name it
    decodes from the response go to the method's own copy of the
    descriptor only.  When its exchange is completed it adds no
    diagnostic either. *)
Theorem deletes_store_nothing rt dec fw c ds0 :
  stores c = false ->
  after (invoke rt dec fw c ds0) = before (invoke rt dec fw c ds0) /\
  (exchange rt dec fw c ds0 = Completed ->
   diags (invoke rt dec fw c ds0) = Append ds0 (read_diags fw c)).
Proof.
  destruct c; cbv [stores]; intros Hs; try discriminate Hs.
  all: paths; replay; split; intros; try reflexivity; congruence.
Qed.

Lemma deletes_store_nothing_witness :
  let rt := Fake.runtime (Fake.always 200 "7") in
  let c := TenantDelete Fake.tenants (Fake.clean Fake.lidl_known) (Some Fake.lidl_known) in
  after (invoke rt Fake.decoder Fake.framework c []) =
  before (invoke rt Fake.decoder Fake.framework c []) /\
  (exchange rt Fake.decoder Fake.framework c [] = Completed ->
   diags (invoke rt Fake.decoder Fake.framework c []) =
   Append [] (read_diags Fake.framework c)).
Proof.
  apply (@deletes_store_nothing
           (Fake.runtime (Fake.always 200 "7")) Fake.decoder Fake.framework
           (TenantDelete Fake.tenants (Fake.clean Fake.lidl_known) (Some Fake.lidl_known)) []).
  reflexivity.
Defined.

Lemma TenantReachable_name r : TenantReachable r -> TenantResource.name r = EmptyString.
Proof.
  induction 1 as [|r x ds _ IH]; [reflexivity|].
  destruct x as [[pd|ty]|]; cbn; assumption.
Qed.

(** X10: the request of a tenant delete is addressed by the reconciler's
    [name], which no method assigns: on every reconciler the framework
    can hold it is a DELETE without body of the endpoint followed by
    [/tenants/], whatever tenant the state describes. *)
Theorem tenant_delete_ignores_the_tenant rt dec fw r s st ds0 request :
  TenantReachable r ->
  In request (sent (invoke rt dec fw (TenantDelete r s st) ds0)) ->
  exists pd,
    TenantResource.providerData r = Some pd /\
    req_Method request = "DELETE" /\
    req_URL request = ProviderData.endpoint pd ++ "/tenants/" /\
    req_Body request = None.
Proof.
  intros Hr. apply TenantReachable_name in Hr. revert Hr.
  paths; cbn [In]; intros Hn Hin; try contradiction; destruct Hin as [<-|[]].
  all: eexists; repeat split.
  all: cbn [SetBasicAuth req_URL]; rewrite Hn; now rewrite append_empty.
Qed.

Lemma tenant_delete_ignores_the_tenant_witness :
  let request :=
    {| req_Method := "DELETE"; req_URL := "https://auth.example/tenants/";
       req_Header := [("Authorization", "Basic admin:hunter2")]; req_Body := None |} in
  exists pd,
    TenantResource.providerData Fake.tenants = Some pd /\
    req_Method request = "DELETE" /\
    req_URL request = ProviderData.endpoint pd ++ "/tenants/" /\
    req_Body request = None.
Proof.
  apply (@tenant_delete_ignores_the_tenant
           (Fake.runtime (Fake.always 200 "7")) Fake.decoder Fake.framework
           Fake.tenants (Fake.clean Fake.lidl_known) (Some Fake.lidl_known) []).
  - apply (TenantReachable_Configure (Some (any_ProviderData Fake.provider)) []
             TenantReachable_new).
  - left. reflexivity.
Defined.

(** X11: a role create sends one request, a POST of [/roles] whose body
    encodes the name and tenant of the plan and the slice the framework
    makes of its scopes.  When the answer has status 200 and decodes, the
    descriptor stored is the plan with the id of the response: name,
    tenant and scopes are the plan's. *)
Theorem role_create_contract rt dec fw r p st ds0 pd cl scopes body :
  HasError ((ds0 ++ get_diags p) ++
            snd (ElementsAs fw (RoleResourceModel.Scopes (raw p))))%list = false ->
  fst (ElementsAs fw (RoleResourceModel.Scopes (raw p))) = scopes ->
  RoleResource.providerData r = Some pd ->
  ProviderData.client pd = Some cl ->
  json_Marshal rt
    (JObject [("name", JString (ValueString (RoleResourceModel.Name (raw p))));
              ("tenant", JString (ValueString (RoleResourceModel.Tenant (raw p))));
              ("scopes", slice_json scopes)])
    = Ok body ->
  url_Parse rt (ProviderData.endpoint pd ++ "/roles") = None ->
  let request :=
    SetBasicAuth rt
      {| req_Method := "POST"; req_URL := ProviderData.endpoint pd ++ "/roles";
         req_Header := []; req_Body := Some body |}
      (ProviderData.username pd) (ProviderData.password pd) in
  let out := invoke rt dec fw (RoleCreate r p st) ds0 in
  sent out = [request] /\
  (forall res b cr,
     client_Do rt request = Ok res -> res_StatusCode res = 200%Z ->
     res_Body res = Ok b -> Unmarshal_createRoleResponse dec b = Ok cr ->
     after out =
     Some (D_Role {| RoleResourceModel.ID := StringValue (createRoleResponse.ID cr);
                     RoleResourceModel.Name := RoleResourceModel.Name (raw p);
                     RoleResourceModel.Tenant := RoleResourceModel.Tenant (raw p);
                     RoleResourceModel.Scopes := RoleResourceModel.Scopes (raw p) |})).
Proof.
  intros Hd He Hpd Hcl Hm Hu request out. subst request out.
  assert (Hg : HasError (get_diags p) = false).
  { rewrite !HasError_app in Hd. apply orb_false_iff in Hd. destruct Hd as [Hd _].
    apply orb_false_iff in Hd. tauto. }
  rewrite <- HasError_Append_twice in Hd.
  unfold_ops; tidy. rewrite Hg. tidy.
  destruct (ElementsAs fw (RoleResourceModel.Scopes (raw p))) as [sl ds] eqn:E.
  cbn [fst snd] in *. subst sl.
  cbv [createRoleRequest.to_json createRoleRequest.Name createRoleRequest.Tenant
       createRoleRequest.Scopes].
  tidy. rewrite Hd, Hm, Hpd, Hu, Hcl. tidy.
  split.
  - repeat (branch; tidy); reflexivity.
  - intros res b cr Hdo Hs Hb Hc. rewrite Hdo, Hs. cbn. rewrite Hb, Hc. reflexivity.
Qed.

Lemma role_create_contract_witness :
  let rt := Fake.runtime (Fake.always 200 "42") in
  let p := Fake.clean Fake.editor in
  let request :=
    SetBasicAuth rt
      {| req_Method := "POST";
         req_URL := ProviderData.endpoint Fake.provider ++ "/roles";
         req_Header := [];
         req_Body :=
           Some (Fake.render
                   (JObject [("name", JString "editor"); ("tenant", JString "lidl");
                             ("scopes", JArray [JString "read"; JString "write"])])) |}
      (ProviderData.username Fake.provider) (ProviderData.password Fake.provider) in
  let out := invoke rt Fake.decoder Fake.framework (RoleCreate Fake.roles p None) [] in
  sent out = [request] /\
  (forall res b cr,
     client_Do rt request = Ok res -> res_StatusCode res = 200%Z ->
     res_Body res = Ok b -> Unmarshal_createRoleResponse Fake.decoder b = Ok cr ->
     after out =
     Some (D_Role {| RoleResourceModel.ID := StringValue (createRoleResponse.ID cr);
                     RoleResourceModel.Name := RoleResourceModel.Name (raw p);
                     RoleResourceModel.Tenant := RoleResourceModel.Tenant (raw p);
                     RoleResourceModel.Scopes := RoleResourceModel.Scopes (raw p) |})).
Proof.
  apply (@role_create_contract
           (Fake.runtime (Fake.always 200 "42")) Fake.decoder Fake.framework
           Fake.roles (Fake.clean Fake.editor) None [] Fake.provider http_DefaultClient
           (Some ["read"; "write"])); reflexivity.
Defined.

(** X12: a role update whose exchange is completed stores the plan with
    the id of the response: the tenant and scopes stored are the plan's,
    although the request carried neither. *)
Theorem role_update_stores_the_plan rt dec fw r s p st ds0 request res body cr :
  sent (invoke rt dec fw (RoleUpdate r s p st) ds0) = [request] ->
  client_Do rt request = Ok res ->
  res_StatusCode res = 200%Z ->
  res_Body res = Ok body ->
  Unmarshal_updateResponse dec body = Ok cr ->
  after (invoke rt dec fw (RoleUpdate r s p st) ds0) =
  Some (D_Role {| RoleResourceModel.ID := StringValue (updateResponse.ID cr);
                  RoleResourceModel.Name := RoleResourceModel.Name (raw p);
                  RoleResourceModel.Tenant := RoleResourceModel.Tenant (raw p);
                  RoleResourceModel.Scopes := RoleResourceModel.Scopes (raw p) |}).
Proof.
  intros Hs Hdo H200 Hb Hu.
  unfold_ops; tidy. repeat (branch; tidy); try discriminate Hs.
  all: apply singleton_inj in Hs; subst request.
  all: match goal with
       | H : client_Do _ ?r = _, H' : client_Do _ ?r = _ |- _ => rewrite H in H'
       end; try discriminate.
  all: match goal with H : Ok _ = Ok _ |- _ => apply Ok_inj in H; subst end.
  all: rewrite H200 in *; cbn [Z.eqb Pos.eqb negb] in *; try discriminate.
  all: match goal with
       | H : res_Body ?r = _, H' : res_Body ?r = _ |- _ => rewrite H in H'
       end; try discriminate.
  all: match goal with H : Ok _ = Ok _ |- _ => apply Ok_inj in H; subst end.
  all: match goal with
       | H : Unmarshal_updateResponse _ ?b = _,
         H' : Unmarshal_updateResponse _ ?b = _ |- _ => rewrite H in H'
       end; try discriminate.
  all: match goal with H : Ok _ = Ok _ |- _ => apply Ok_inj in H; subst end.
  reflexivity.
Qed.

Lemma role_update_stores_the_plan_witness :
  after (invoke (Fake.runtime (Fake.always 200 "42")) Fake.decoder Fake.framework
           (RoleUpdate Fake.roles (Fake.clean Fake.editor_known) (Fake.clean Fake.auditor)
              (Some Fake.editor_known)) []) =
  Some (D_Role {| RoleResourceModel.ID := StringValue "42";
                  RoleResourceModel.Name := StringValue "auditor";
                  RoleResourceModel.Tenant := StringValue "aldi";
                  RoleResourceModel.Scopes := ListValue [StringValue "read"] |}).
Proof.
  apply (@role_update_stores_the_plan
           (Fake.runtime (Fake.always 200 "42")) Fake.decoder Fake.framework
           Fake.roles (Fake.clean Fake.editor_known) (Fake.clean Fake.auditor)
           (Some Fake.editor_known) []
           {| req_Method := "PATCH"; req_URL := "https://auth.example/tenants";
              req_Header := [("Authorization", "Basic admin:hunter2")];
              req_Body :=
                Some (Fake.render (JObject [("tenant", JString "editor");
                                            ("new_tenant", JString "auditor")])) |}
           {| res_StatusCode := 200; res_Body := Ok "42" |} "42"
           {| updateResponse.ID := "42" |}); reflexivity.
Defined.

(** X13: a data source read whose answer has status 200 and decodes
    stores the name of the configuration and the id of the response,
    whatever name the response carries. *)
Theorem data_source_read_keeps_the_name rt dec fw d q st ds0 request res body found :
  sent (invoke rt dec fw (TenantDataRead d q st) ds0) = [request] ->
  client_Do rt request = Ok res ->
  res_StatusCode res = 200%Z ->
  res_Body res = Ok body ->
  Unmarshal_tenantDataReadResponse dec body = Ok found ->
  after (invoke rt dec fw (TenantDataRead d q st) ds0) =
  Some (D_TenantData
          {| TenantDataSourceModel.ID := StringValue (tenantDataReadResponse.ID found);
             TenantDataSourceModel.Name := TenantDataSourceModel.Name (raw q) |}).
Proof.
  intros Hs Hdo H200 Hb Hu.
  unfold_ops; tidy. repeat (branch; tidy); try discriminate Hs.
  all: apply singleton_inj in Hs; subst request.
  all: match goal with
       | H : client_Do _ ?r = _, H' : client_Do _ ?r = _ |- _ => rewrite H in H'
       end; try discriminate.
  all: match goal with H : Ok _ = Ok _ |- _ => apply Ok_inj in H; subst end.
  all: rewrite H200 in *; cbn [Z.eqb Pos.eqb negb] in *; try discriminate.
  all: match goal with
       | H : res_Body ?r = _, H' : res_Body ?r = _ |- _ => rewrite H in H'
       end; try discriminate.
  all: match goal with H : Ok _ = Ok _ |- _ => apply Ok_inj in H; subst end.
  all: match goal with
       | H : Unmarshal_tenantDataReadResponse _ ?b = _,
         H' : Unmarshal_tenantDataReadResponse _ ?b = _ |- _ => rewrite H in H'
       end; try discriminate.
  all: match goal with H : Ok _ = Ok _ |- _ => apply Ok_inj in H; subst end.
  reflexivity.
Qed.

Lemma data_source_read_keeps_the_name_witness :
  after (invoke (Fake.runtime (Fake.always 200 "7")) Fake.decoder Fake.framework
           (TenantDataRead Fake.source
              (Fake.clean {| TenantDataSourceModel.ID := StringNull;
                             TenantDataSourceModel.Name := StringValue "lidl" |})
              None) []) =
  Some (D_TenantData
          {| TenantDataSourceModel.ID := StringValue "7";
             TenantDataSourceModel.Name := StringValue "lidl" |}).
Proof.
  apply (@data_source_read_keeps_the_name
           (Fake.runtime (Fake.always 200 "7")) Fake.decoder Fake.framework
           Fake.source
           (Fake.clean {| TenantDataSourceModel.ID := StringNull;
                          TenantDataSourceModel.Name := StringValue "lidl" |})
           None []
           {| req_Method := "GET"; req_URL := "https://auth.example/tenants/lidl";
              req_Header := [("Authorization", "Basic admin:hunter2")];
              req_Body := None |}
           {| res_StatusCode := 200; res_Body := Ok "7" |} "7"
           {| tenantDataReadResponse.ID := "7";
              tenantDataReadResponse.Name := "remote" |}); reflexivity.
Defined.

(** ** Log and diagnostics by outcome *)

(** X14: a call writes to the log at error level only when the remote
    answered with a status other than 200 and the body could be read;
    the entry then carries that body and nothing else. *)
Theorem error_log_means_rejected_status rt dec fw c ds0 entry :
  In entry (logged (invoke rt dec fw c ds0)) ->
  level entry = LevelError ->
  exists status body,
    exchange rt dec fw c ds0 = RemoteRejected status (Ok body) /\
    fields entry = [("body", body)].
Proof.
  destruct c; paths; cbn [In]; intros Hin Hl.
  all: repeat (destruct Hin as [<-|Hin]); try contradiction.
  all: cbn [level] in Hl; try discriminate Hl.
  all: replay; do 2 eexists; split; reflexivity.
Qed.

Lemma error_log_means_rejected_status_witness :
  let rt := Fake.runtime (Fake.always 404 "no such tenant") in
  let c := TenantRead Fake.tenants (Fake.clean Fake.lidl_known) (Some Fake.lidl_known) in
  let entry :=
    {| level := LevelError; msg := "could not read tenant";
       fields := [("body", "no such tenant")] |} in
  exists status body,
    exchange rt Fake.decoder Fake.framework c [] = RemoteRejected status (Ok body) /\
    fields entry = [("body", body)].
Proof.
  apply (@error_log_means_rejected_status
           (Fake.runtime (Fake.always 404 "no such tenant")) Fake.decoder Fake.framework
           (TenantRead Fake.tenants (Fake.clean Fake.lidl_known) (Some Fake.lidl_known)) []).
  - right. right. left. reflexivity.
  - reflexivity.
Defined.

(** X15: a call whose exchange is completed adds no diagnostic of its
    own: it returns those the response had, those of reading its
    descriptors and, for a role read, those of rebuilding the list of
    scopes. *)
Theorem completed_exchange_adds_no_diagnostic rt dec fw c ds0 :
  exchange rt dec fw c ds0 = Completed ->
  diags (invoke rt dec fw c ds0) =
  Append ds0 (read_diags fw c ++ convert_diags fw c)%list.
Proof.
  destruct c; cbv [convert_diags]; paths; replay; intros; try congruence.
  all: same_answers; rewrite ?app_nil_r, ?Append_app; reflexivity.
Qed.

Lemma completed_exchange_adds_no_diagnostic_witness :
  let rt := Fake.runtime (Fake.always 200 "42") in
  let c := RoleRead Fake.roles (Fake.clean Fake.editor_known) (Some Fake.editor_known) in
  diags (invoke rt Fake.decoder Fake.framework c []) =
  Append [] (read_diags Fake.framework c ++ convert_diags Fake.framework c)%list.
Proof.
  apply (@completed_exchange_adds_no_diagnostic
           (Fake.runtime (Fake.always 200 "42")) Fake.decoder Fake.framework
           (RoleRead Fake.roles (Fake.clean Fake.editor_known) (Some Fake.editor_known)) []).
  reflexivity.
Defined.

(** ** Import *)

(** X16: importing a tenant by id leaves a state with that id and a null
    name; the read that follows asks for [/tenants/] with an empty name
    and, when its exchange is completed, stores the id of the response
    and a name that is still null. *)
Theorem import_then_read_leaves_the_name_null rt dec fw r id ds0 pd cl :
  HasError ds0 = false ->
  TenantResource.providerData r = Some pd ->
  ProviderData.client pd = Some cl ->
  url_Parse rt (ProviderData.endpoint pd ++ "/tenants/") = None ->
  exists imported,
    resp_State (snd (TenantResource_ImportState r id (start None []))) = Some imported /\
    TenantResourceModel.Name imported = StringNull /\
    TenantResourceModel.ID imported = StringValue id /\
    let c := TenantRead r {| raw := imported; get_diags := [] |} (Some imported) in
    map req_URL (sent (invoke rt dec fw c ds0)) =
      [ProviderData.endpoint pd ++ "/tenants/"] /\
    (exchange rt dec fw c ds0 = Completed ->
     exists d, after (invoke rt dec fw c ds0) = Some (D_Tenant d) /\
               TenantResourceModel.Name d = StringNull).
Proof.
  intros Hd Hpd Hcl Hu.
  eexists. split; [reflexivity|]. split; [reflexivity|]. split; [reflexivity|].
  cbv zeta. unfold_ops.
  cbn [raw get_diags TenantResourceModel.set_ID TenantResourceModel_null
       TenantResourceModel.Name TenantResourceModel.ID ValueString].
  tidy. cbn [Append]. rewrite Hd. tidy. rewrite Hpd. tidy.
  cbv [TenantResourceModel_null TenantResourceModel.set_ID TenantResourceModel.Name
       TenantResourceModel.ID ValueString].
  replace (ProviderData.endpoint pd ++ "/tenants/" ++ EmptyString)
    with (ProviderData.endpoint pd ++ "/tenants/") by reflexivity.
  rewrite Hu, Hcl. tidy.
  split.
  - repeat (branch; tidy); reflexivity.
  - repeat (branch; tidy); replay; intros; try congruence.
    eexists; split; reflexivity.
Qed.

Lemma import_then_read_leaves_the_name_null_witness :
  let rt := Fake.runtime (Fake.always 200 "7") in
  exists imported,
    resp_State (snd (TenantResource_ImportState Fake.tenants "7" (start None [])))
    = Some imported /\
    TenantResourceModel.Name imported = StringNull /\
    TenantResourceModel.ID imported = StringValue "7" /\
    let c := TenantRead Fake.tenants {| raw := imported; get_diags := [] |}
               (Some imported) in
    map req_URL (sent (invoke rt Fake.decoder Fake.framework c [])) =
      [ProviderData.endpoint Fake.provider ++ "/tenants/"] /\
    (exchange rt Fake.decoder Fake.framework c [] = Completed ->
     exists d, after (invoke rt Fake.decoder Fake.framework c []) = Some (D_Tenant d) /\
               TenantResourceModel.Name d = StringNull).
Proof.
  apply (@import_then_read_leaves_the_name_null
           (Fake.runtime (Fake.always 200 "7")) Fake.decoder Fake.framework
           Fake.tenants "7" [] Fake.provider http_DefaultClient); reflexivity.
Defined.

(** ** Where requests go *)

(** X17: every request a call sends goes to the endpoint its receiver
    was configured with: the URL is that endpoint followed by a path
    under [/tenants], or by [/roles]; the method is one of GET, POST,
    PATCH and DELETE, and a GET or DELETE has no body. *)
Theorem every_request_goes_to_the_configured_endpoint rt dec fw c ds0 request :
  In request (sent (invoke rt dec fw c ds0)) ->
  exists base route,
    base_url c = Some base /\
    req_URL request = base ++ route /\
    (String.prefix "/tenants" route = true \/ route = "/roles") /\
    In (req_Method request) ["GET"; "POST"; "PATCH"; "DELETE"] /\
    (req_Method request = "GET" \/ req_Method request = "DELETE" ->
     req_Body request = None).
Proof.
  destruct c; paths; cbn [In]; intros Hin; try contradiction.
  all: destruct Hin as [<-|[]].
  all: cbv [base_url]; rewrite ?Heqo; cbn [option_map].
  all: do 2 eexists; split; [reflexivity|].
  all: cbn [SetBasicAuth req_URL req_Method req_Body].
  all: split; [reflexivity|].
  all: split; [first [left; reflexivity | right; reflexivity]|].
  all: split; [cbn; tauto|].
  all: intros [H|H]; first [reflexivity | discriminate H].
Qed.

Lemma every_request_goes_to_the_configured_endpoint_witness :
  let request :=
    {| req_Method := "POST"; req_URL := "https://auth.example/roles";
       req_Header := [("Authorization", "Basic admin:hunter2")];
       req_Body :=
         Some (Fake.render
                 (JObject [("name", JString "editor"); ("tenant", JString "lidl");
                           ("scopes", JArray [JString "read"; JString "write"])])) |} in
  exists base route,
    base_url (RoleCreate Fake.roles (Fake.clean Fake.editor) None) = Some base /\
    req_URL request = base ++ route /\
    (String.prefix "/tenants" route = true \/ route = "/roles") /\
    In (req_Method request) ["GET"; "POST"; "PATCH"; "DELETE"] /\
    (req_Method request = "GET" \/ req_Method request = "DELETE" ->
     req_Body request = None).
Proof.
  apply (@every_request_goes_to_the_configured_endpoint
           (Fake.runtime (Fake.always 200 "42")) Fake.decoder Fake.framework
           (RoleCreate Fake.roles (Fake.clean Fake.editor) None) []).
  left. reflexivity.
Defined.
